(** * The "weigh a black hole" notebook: physical-quantity derivations

    The notebook cells that turn line-analysis measurements into
    astrophysical estimates (velocity dispersion, black-hole mass,
    fractional error, projected distance, rotation velocity, enclosed
    mass, density) are embedded here as functions on unit-carrying
    quantities.

    Numbers.  The notebook computes with IEEE doubles held in numpy
    scalars.  The cells are embedded twice.  On quantities, a finite
    double is the real number it denotes (decimal literals are read as
    exact rationals, rounding and overflow are left out) and the special
    results numpy gives where a formula leaves its domain (nan, +inf,
    -inf) are kept, because numpy returns them with a warning and raises
    nothing: this is the arithmetic every statement "in exact
    arithmetic" speaks of.  In [Binary64] the value part of a cell is
    computed on binary64 doubles as numpy does; statements that depend
    on rounding, overflow or underflow are made there.

    Units.  An astropy unit is modelled by its scale to the SI base and
    its exponents on length, mass, time and angle; a Quantity is a value
    with a unit.  Multiplication, division and powers of quantities never
    raise; addition, subtraction and [to] convert units and raise
    astropy's UnitConversionError on incompatible dimensions. *)

From Stdlib Require Import Floats.
From Stdlib Require Import Reals Lra Lia ZArith QArith Qreals.
From Stdlib Require Import String DecimalString List Bool.
From Stdlib Require Import Sorting.Sorted Sorting.Permutation.
Import ListNotations.

Local Open Scope R_scope.

(** ** Numeric values *)

Module Float.

Inductive sign := Neg | Zero | Pos.

Definition Rsign (r : R) : sign :=
  match total_order_T r 0 with
  | inleft (left _) => Neg
  | inleft (right _) => Zero
  | inright _ => Pos
  end.

(** A numpy float: a finite value, an infinity with its sign bit, or nan. *)
Inductive fval :=
| Fin (r : R)
| Inf (negative : bool)
| NaN.

Definition fopp (x : fval) : fval :=
  match x with
  | Fin a => Fin (- a)
  | Inf s => Inf (negb s)
  | NaN => NaN
  end.

Definition fadd (x y : fval) : fval :=
  match x, y with
  | NaN, _ | _, NaN => NaN
  | Fin a, Fin b => Fin (a + b)
  | Inf s, Fin _ | Fin _, Inf s => Inf s
  | Inf s, Inf t => if Bool.eqb s t then Inf s else NaN
  end.

Definition fsub (x y : fval) : fval := fadd x (fopp y).

Definition inf_times (s : bool) (b : R) : fval :=
  match Rsign b with
  | Zero => NaN
  | Neg => Inf (negb s)
  | Pos => Inf s
  end.

Definition fmul (x y : fval) : fval :=
  match x, y with
  | NaN, _ | _, NaN => NaN
  | Fin a, Fin b => Fin (a * b)
  | Inf s, Fin b | Fin b, Inf s => inf_times s b
  | Inf s, Inf t => Inf (xorb s t)
  end.

(** Division as numpy does it: a zero divisor gives nan for 0/0 and an
    infinity otherwise, never an exception. *)
Definition fdiv (x y : fval) : fval :=
  match x, y with
  | NaN, _ | _, NaN => NaN
  | Fin a, Fin b =>
      match Rsign b with
      | Zero =>
          match Rsign a with
          | Zero => NaN
          | Neg => Inf true
          | Pos => Inf false
          end
      | _ => Fin (a / b)
      end
  | Fin _, Inf _ => Fin 0
  | Inf s, Fin b =>
      match Rsign b with
      | Neg => Inf (negb s)
      | _ => Inf s
      end
  | Inf _, Inf _ => NaN
  end.

(** Exponents are literals of the notebook (2, 3, 4.02): rationals. *)
Definition is_integer (y : Q) : bool := (Z.pos (Qden (Qred y)) =? 1)%Z.

Definition is_odd_integer (y : Q) : bool :=
  is_integer y && Z.odd (Qnum (Qred y)).

(** [a ** y] for a finite non-zero base on which the power is defined. *)
Definition rpow (a : R) (y : Q) : R :=
  if is_integer y then powerRZ a (Qnum (Qred y)) else Rpower a (Q2R y).

Definition positive_exponent (y : Q) : bool := (0 <? Qnum y)%Z.

(** [np.power(x, y)]: a negative base with a non-integer exponent is nan. *)
Definition fpow (x : fval) (y : Q) : fval :=
  if (Qnum y =? 0)%Z then Fin 1 else
  match x with
  | NaN => NaN
  | Fin a =>
      match Rsign a with
      | Pos => Fin (rpow a y)
      | Zero => if positive_exponent y then Fin 0 else Inf false
      | Neg => if is_integer y then Fin (rpow a y) else NaN
      end
  | Inf s =>
      if positive_exponent y
      then Inf (s && is_odd_integer y)
      else Fin 0
  end.


(** [x] agrees with [target] within the relative tolerance [tol]. *)
Definition approximately (tol target : R) (x : fval) : Prop :=
  match x with
  | Fin a => Rabs (a - target) <= tol * Rabs target
  | _ => False
  end.

End Float.
Export Float.

(** ** Units *)

Module Units.

(** Exponents of the base dimensions. *)
Record dims := { d_length : Q; d_mass : Q; d_time : Q; d_angle : Q }.

Definition dims_eqb (a b : dims) : bool :=
  Qeq_bool (d_length a) (d_length b) && Qeq_bool (d_mass a) (d_mass b)
  && Qeq_bool (d_time a) (d_time b) && Qeq_bool (d_angle a) (d_angle b).

Definition dims_mul (a b : dims) : dims :=
  {| d_length := Qred (d_length a + d_length b);
     d_mass := Qred (d_mass a + d_mass b);
     d_time := Qred (d_time a + d_time b);
     d_angle := Qred (d_angle a + d_angle b) |}.

Definition dims_div (a b : dims) : dims :=
  {| d_length := Qred (d_length a - d_length b);
     d_mass := Qred (d_mass a - d_mass b);
     d_time := Qred (d_time a - d_time b);
     d_angle := Qred (d_angle a - d_angle b) |}.

Definition dims_pow (a : dims) (y : Q) : dims :=
  {| d_length := Qred (d_length a * y);
     d_mass := Qred (d_mass a * y);
     d_time := Qred (d_time a * y);
     d_angle := Qred (d_angle a * y) |}.

(** [scale] is the size of the unit in the SI base unit of its dimension. *)
Record Unit := { scale : R; dim : dims }.

Definition umul (u v : Unit) : Unit :=
  {| scale := scale u * scale v; dim := dims_mul (dim u) (dim v) |}.

Definition udiv (u v : Unit) : Unit :=
  {| scale := scale u / scale v; dim := dims_div (dim u) (dim v) |}.

Definition upow (u : Unit) (y : Q) : Unit :=
  {| scale := rpow (scale u) y; dim := dims_pow (dim u) y |}.

Definition convertible (u v : Unit) : bool := dims_eqb (dim u) (dim v).

Definition dimensionless_dims : dims :=
  {| d_length := 0; d_mass := 0; d_time := 0; d_angle := 0 |}.
Definition length_dims : dims :=
  {| d_length := 1; d_mass := 0; d_time := 0; d_angle := 0 |}.
Definition mass_dims : dims :=
  {| d_length := 0; d_mass := 1; d_time := 0; d_angle := 0 |}.
Definition time_dims : dims :=
  {| d_length := 0; d_mass := 0; d_time := 1; d_angle := 0 |}.
Definition angle_dims : dims :=
  {| d_length := 0; d_mass := 0; d_time := 0; d_angle := 1 |}.
Definition velocity_dims : dims := dims_div length_dims time_dims.

Definition dimensionless : Unit := {| scale := 1; dim := dimensionless_dims |}.
Definition metre : Unit := {| scale := 1; dim := length_dims |}.
Definition km : Unit := {| scale := 1000; dim := length_dims |}.
Definition AA : Unit := {| scale := / 10000000000; dim := length_dims |}.
Definition um : Unit := {| scale := / 1000000; dim := length_dims |}.
Definition second : Unit := {| scale := 1; dim := time_dims |}.
Definition kg : Unit := {| scale := 1; dim := mass_dims |}.
Definition rad : Unit := {| scale := 1; dim := angle_dims |}.
Definition arcsec : Unit := {| scale := PI / 648000; dim := angle_dims |}.

(** The astronomical unit, and the parsec as 648000/pi of it. *)
Definition au_in_m : R := 149597870700.
Definition pc_in_m : R := au_in_m * 648000 / PI.
Definition pc : Unit := {| scale := pc_in_m; dim := length_dims |}.
Definition Mpc : Unit := {| scale := 1000000 * pc_in_m; dim := length_dims |}.

(** [astropy.constants.G] in m3 / (kg s2) and the solar mass GM_sun / G. *)
Definition G_si : R := 6.6743 / 100000000000.
Definition GM_sun_si : R := 132712440000000000000.
Definition M_sun_in_kg : R := GM_sun_si / G_si.
Definition M_sun : Unit := {| scale := M_sun_in_kg; dim := mass_dims |}.

Definition km_per_s : Unit := udiv km second.

(** The spectral units besides the wavelengths: frequency, energy,
    wavenumber and angular wavenumber. *)
Definition frequency_dims : dims :=
  {| d_length := 0; d_mass := 0; d_time := -1; d_angle := 0 |}.
Definition energy_dims : dims :=
  {| d_length := 2; d_mass := 1; d_time := -2; d_angle := 0 |}.
Definition wavenumber_dims : dims :=
  {| d_length := -1; d_mass := 0; d_time := 0; d_angle := 0 |}.
Definition angular_wavenumber_dims : dims :=
  {| d_length := -1; d_mass := 0; d_time := 0; d_angle := 1 |}.

Definition Hz : Unit := {| scale := 1; dim := frequency_dims |}.
Definition J : Unit := {| scale := 1; dim := energy_dims |}.
Definition eV : Unit :=
  {| scale := 1.602176634 / 10000000000000000000; dim := energy_dims |}.
Definition per_metre : Unit := {| scale := 1; dim := wavenumber_dims |}.
Definition rad_per_metre : Unit :=
  {| scale := 1; dim := angular_wavenumber_dims |}.

(** The speed of light in m/s and the Planck constant in J s. *)
Definition c_si : R := 299792458.
Definition h_si : R := 6.62607015 / 10000000000000000000000000000000000.

(** Speed of light in km/s, the [ckms] of astropy's equivalencies. *)
Definition ckms : R := 299792.458.

End Units.
Export Units.

(** ** Exceptions and results *)

Module Py.

(** A raised Python exception: its class name and its message.  The
    message is [None] where the real one spells out values this
    development does not keep (the names of the units, the text that
    failed to parse). *)
Record exn := { exn_class : string; exn_msg : option string }.

Inductive outcome (A : Type) :=
| Ok (a : A)
| Raise (e : exn).
Arguments Ok {A} a.
Arguments Raise {A} e.

Definition bind {A B} (x : outcome A) (k : A -> outcome B) : outcome B :=
  match x with
  | Ok a => k a
  | Raise e => Raise e
  end.

Definition raises {A} (x : outcome A) (cls : string) : Prop :=
  exists e, x = Raise e /\ exn_class e = cls.

Definition UnitConversionError : exn :=
  {| exn_class := "UnitConversionError"; exn_msg := None |}.

Definition UnitsError : exn :=
  {| exn_class := "UnitsError";
     exn_msg := Some "The 'rest' value must be a spectral equivalent (frequency, wavelength, or energy)."%string |}.

Definition IndexError : exn :=
  {| exn_class := "IndexError";
     exn_msg := Some "list index out of range"%string |}.

(** The IndexError of a numpy array of [size] entries indexed at [i]. *)
Definition out_of_bounds (i size : nat) : exn :=
  {| exn_class := "IndexError";
     exn_msg :=
       Some ("index " ++ NilEmpty.string_of_uint (Nat.to_uint i)
             ++ " is out of bounds for axis 0 with size "
             ++ NilEmpty.string_of_uint (Nat.to_uint size))%string |}.

End Py.
Export Py.

Notation "x <- c ;; k" := (bind c (fun x => k))
  (at level 61, c at next level, right associativity).

(** ** Quantities *)

Module Quantities.

Record Quantity := { value : fval; unit : Unit }.

(** [x * u]: a float times a unit. *)
Definition quantity (x : R) (u : Unit) : Quantity :=
  {| value := Fin x; unit := u |}.

Definition qmul (p q : Quantity) : Quantity :=
  {| value := fmul (value p) (value q); unit := umul (unit p) (unit q) |}.

Definition qdiv (p q : Quantity) : Quantity :=
  {| value := fdiv (value p) (value q); unit := udiv (unit p) (unit q) |}.

Definition qpow (p : Quantity) (y : Q) : Quantity :=
  {| value := fpow (value p) y; unit := upow (unit p) y |}.

(** A plain float on the left or right of a quantity. *)
Definition qscale (x : fval) (q : Quantity) : Quantity :=
  {| value := fmul x (value q); unit := unit q |}.

Definition qmul_float (q : Quantity) (x : fval) : Quantity :=
  {| value := fmul (value q) x; unit := unit q |}.

Definition qdiv_float (q : Quantity) (x : fval) : Quantity :=
  {| value := fdiv (value q) x; unit := unit q |}.

(** [q.to_value(u)]. *)
Definition to_value (q : Quantity) (u : Unit) : outcome fval :=
  if convertible (unit q) u
  then Ok (fmul (value q) (Fin (scale (unit q) / scale u)))
  else Raise UnitConversionError.

(** [q.to(u)]. *)
Definition to (q : Quantity) (u : Unit) : outcome Quantity :=
  x <- to_value q u ;; Ok {| value := x; unit := u |}.

(** [p + q] and [p - q]: the right operand is converted to the unit of
    the left one. *)
Definition qadd (p q : Quantity) : outcome Quantity :=
  y <- to_value q (unit p) ;;
  Ok {| value := fadd (value p) y; unit := unit p |}.

Definition qsub (p q : Quantity) : outcome Quantity :=
  y <- to_value q (unit p) ;;
  Ok {| value := fsub (value p) y; unit := unit p |}.

(** The value of a quantity in the SI base unit of its dimension. *)
Definition si_value (q : Quantity) : fval :=
  fmul (value q) (Fin (scale (unit q))).

(** [astropy.constants.G]. *)
Definition G : Quantity :=
  quantity G_si (udiv (upow metre 3) (umul kg (upow second 2))).

(** *** Spectral quantities

    astropy's [spectral()] relates wavelength, frequency, energy,
    wavenumber and angular wavenumber; the functions below are its
    conversions, on values in m, Hz, J, 1/m and rad/m. *)
Inductive spectral :=
| Wavelength | Frequency | Energy | Wavenumber | AngularWavenumber.

Definition spectral_of (u : Unit) : option spectral :=
  if convertible u metre then Some Wavelength
  else if convertible u Hz then Some Frequency
  else if convertible u J then Some Energy
  else if convertible u per_metre then Some Wavenumber
  else if convertible u rad_per_metre then Some AngularWavenumber
  else None.

Definition two_pi : R := 2 * PI.
Definition hc : R := h_si * c_si.

Definition to_wavelength (kind : spectral) (x : fval) : fval :=
  match kind with
  | Wavelength => x
  | Frequency => fdiv (Fin c_si) x
  | Energy => fdiv (Fin hc) x
  | Wavenumber => fdiv (Fin 1) x
  | AngularWavenumber => fdiv (Fin two_pi) x
  end.

Definition to_frequency (kind : spectral) (x : fval) : fval :=
  match kind with
  | Wavelength => fdiv (Fin c_si) x
  | Frequency => x
  | Energy => fdiv x (Fin h_si)
  | Wavenumber => fmul (Fin c_si) x
  | AngularWavenumber => fdiv (fmul (Fin c_si) x) (Fin two_pi)
  end.

Definition to_energy (kind : spectral) (x : fval) : fval :=
  match kind with
  | Wavelength => fdiv (Fin hc) x
  | Frequency => fmul (Fin h_si) x
  | Energy => x
  | Wavenumber => fmul (Fin hc) x
  | AngularWavenumber => fdiv (fmul (Fin hc) x) (Fin two_pi)
  end.

(** [q.to_value(u, spectral())] for a unit [u] whose SI value the
    function [convert] gives: directly where the units convert,
    through [spectral()] otherwise. *)
Definition to_value_spectral (convert : spectral -> fval -> fval)
  (si_unit : Unit) (q : Quantity) (u : Unit) : outcome fval :=
  if convertible (unit q) u then to_value q u
  else
    match spectral_of (unit q) with
    | Some kind =>
        Ok (fmul (convert kind (si_value q))
                 (Fin (scale si_unit / scale u)))
    | None => Raise UnitConversionError
    end.

(** *** The relativistic Doppler equivalency

    [q.to(u.km / u.s, u.doppler_relativistic(rest))].  astropy's
    [doppler_relativistic(rest)] first checks that [rest] is a spectral
    quantity, then offers three conversions to km/s, tried in this
    order: from a frequency in Hz, from a wavelength in Angstrom and
    from an energy in eV, each against [rest] brought to the same unit
    through [spectral()].  A quantity that is already a velocity
    converts directly. *)
Definition to_vel_freq (restfreq x : fval) : fval :=
  fmul (fdiv (fsub (fpow restfreq 2) (fpow x 2))
             (fadd (fpow restfreq 2) (fpow x 2)))
       (Fin ckms).

Definition to_vel_wav (restwav x : fval) : fval :=
  fmul (fdiv (fsub (fpow x 2) (fpow restwav 2))
             (fadd (fpow restwav 2) (fpow x 2)))
       (Fin ckms).

Definition to_vel_en (resten x : fval) : fval :=
  fmul (fdiv (fsub (fpow resten 2) (fpow x 2))
             (fadd (fpow resten 2) (fpow x 2)))
       (Fin ckms).

Definition to_km_per_s_doppler_relativistic (q rest : Quantity)
  : outcome Quantity :=
  match spectral_of (unit rest) with
  | None => Raise UnitsError
  | Some _ =>
      if convertible (unit q) km_per_s then to q km_per_s
      else if convertible (unit q) Hz then
        x <- to_value q Hz ;;
        restfreq <- to_value_spectral to_frequency Hz rest Hz ;;
        Ok {| value := to_vel_freq restfreq x; unit := km_per_s |}
      else if convertible (unit q) AA then
        x <- to_value q AA ;;
        restwav <- to_value_spectral to_wavelength metre rest AA ;;
        Ok {| value := to_vel_wav restwav x; unit := km_per_s |}
      else if convertible (unit q) eV then
        x <- to_value q eV ;;
        resten <- to_value_spectral to_energy J rest eV ;;
        Ok {| value := to_vel_en resten x; unit := km_per_s |}
      else Raise UnitConversionError
  end.

End Quantities.
Export Quantities.

(** ** Python lists *)

Module PyList.

(** [l[i]] for a non-negative index. *)
Definition index {A} (l : list A) (i : nat) : outcome A :=
  match nth_error l i with
  | Some a => Ok a
  | None => Raise IndexError
  end.

(** [l[-1]]. *)
Definition index_last {A} (l : list A) : outcome A :=
  match rev l with
  | a :: _ => Ok a
  | [] => Raise IndexError
  end.

(** [l[-n:]]. *)
Definition slice_last {A} (n : nat) (l : list A) : list A :=
  skipn (length l - n) l.

Fixpoint insert_sorted (x : string) (l : list string) : list string :=
  match l with
  | [] => [x]
  | y :: l' => if String.leb x y then x :: l else y :: insert_sorted x l'
  end.

(** [sorted(l)] on strings. *)
Definition sorted (l : list string) : list string :=
  fold_right insert_sorted [] l.

End PyList.
Export PyList.

(** ** The notebook *)

Module Notebook.

(** One entry of [line_analysis.get_results()]: the strings under the
    keys 'result' and 'unit'. *)
Record result_row := { row_result : string; row_unit : string }.

(** A quantity array, as [u.Quantity(list)] builds it. *)
Record QuantityArray := { values : list fval; array_unit : Unit }.

Definition array_index (a : QuantityArray) (i : nat) : outcome Quantity :=
  match nth_error (values a) i with
  | Some x => Ok {| value := x; unit := array_unit a |}
  | None => Raise (out_of_bounds i (length (values a)))
  end.

(** [a.mean()]: the sum of the entries over their number. *)
Definition array_mean (a : QuantityArray) : Quantity :=
  {| value := fdiv (fold_left fadd (values a) (Fin 0))
                   (Fin (INR (length (values a))));
     unit := array_unit a |}.

Fixpoint to_values (l : list Quantity) (u : Unit) : outcome (list fval) :=
  match l with
  | [] => Ok []
  | q :: l' =>
      x <- to_value q u ;;
      xs <- to_values l' u ;;
      Ok (x :: xs)
  end.

(** [u.Quantity(l)]: every entry in the unit of the first one. *)
Definition quantity_array (l : list Quantity) : outcome QuantityArray :=
  match l with
  | [] => Ok {| values := []; array_unit := dimensionless |}
  | q :: _ =>
      xs <- to_values l (unit q) ;;
      Ok {| values := xs; array_unit := unit q |}
  end.

Definition please_select : exn :=
  {| exn_class := "Exception";
     exn_msg := Some "Please select a spectral region in Cubeviz centered on an emission line to continue with the tutorial."%string |}.

(** *** Cells that talk to Cubeviz

    The Cubeviz application and its Line Analysis plugin are external:
    the cells see them through the calls below, on a session state that
    the calls read and update.  Python's [float] and astropy's [u.Unit]
    parse the strings of a result row.  Printing is left out. *)
Section Cubeviz.

Variable session : Type.

Definition M (A : Type) : Type := session -> outcome A * session.

Definition ret {A} (a : A) : M A := fun st => (Ok a, st).
Definition throw {A} (e : exn) : M A := fun st => (Raise e, st).
Definition lift {A} (x : outcome A) : M A := fun st => (x, st).
Definition bindM {A B} (c : M A) (k : A -> M B) : M B :=
  fun st =>
    match c st with
    | (Ok a, st') => k a st'
    | (Raise e, st') => (Raise e, st')
    end.

Variable spectral_subset_choices : session -> list string.
Variable set_spatial_subset : string -> M Datatypes.unit.
Variable set_spectral_subset : string -> M Datatypes.unit.
Variable get_results : M (list result_row).
Variable get_interactive_regions_keys : M (list string).
Variable float : string -> outcome fval.
Variable Unit_of_string : string -> outcome Unit.

Local Notation "x <-- c ;;; k" := (bindM c (fun x => k))
  (at level 61, c at next level, right associativity).

(** [float(row['result']) * u.Unit(row['unit'])]. *)
Definition row_quantity (row : result_row) : outcome Quantity :=
  x <- float (row_result row) ;;
  u <- Unit_of_string (row_unit row) ;;
  Ok {| value := x; unit := u |}.

(** [len(line_analysis.spectral_subset.choices) - 1]. *)
Definition available_spectral_subsets (st : session) : Z :=
  (Z.of_nat (length (spectral_subset_choices st)) - 1)%Z.

(** The velocity dispersion from a line width: the shift of
    [centroid + sigma] against the centroid. *)
Definition velocity_dispersion_of (centroid_wavelength sigma_width : Quantity)
  : outcome Quantity :=
  shifted <- qadd centroid_wavelength sigma_width ;;
  to_km_per_s_doppler_relativistic shifted centroid_wavelength.

(** The cell "Spectral line analysis". *)
Definition velocity_dispersion : M Quantity :=
  fun st =>
    if (available_spectral_subsets st =? 0)%Z then throw please_select st
    else
      (_ <-- set_spatial_subset "Subset 1" ;;;
       _ <-- set_spectral_subset "Subset 2" ;;;
       line_analysis_results <-- get_results ;;;
       sigma_row <-- lift (index line_analysis_results 2) ;;;
       sigma_width <-- lift (row_quantity sigma_row) ;;;
       center <-- lift (index_last line_analysis_results) ;;;
       centroid_wavelength <-- lift (row_quantity center) ;;;
       lift (velocity_dispersion_of centroid_wavelength sigma_width)) st.

(** The body of the loop over the last two spatial subsets. *)
Fixpoint measure_centroids (subsets : list string) (acc : list Quantity)
  : M (list Quantity) :=
  match subsets with
  | [] => ret acc
  | subset :: rest =>
      _ <-- set_spatial_subset subset ;;;
      results <-- get_results ;;;
      center <-- lift (index_last results) ;;;
      centroid_wavelength <-- lift (row_quantity center) ;;;
      measure_centroids rest (acc ++ [centroid_wavelength])
  end.

(** The cell "Measure line centroid shifts". *)
Definition wavelength_centroids : M QuantityArray :=
  fun st =>
    if (available_spectral_subsets st =? 0)%Z then throw please_select st
    else
      (_ <-- set_spectral_subset "Subset 2" ;;;
       keys <-- get_interactive_regions_keys ;;;
       l <-- measure_centroids (slice_last 2 (sorted keys)) [] ;;;
       lift (quantity_array l)) st.

End Cubeviz.

(** *** Cells that only compute *)

(** [1.349e8 * u.M_sun * (velocity_dispersion / (200 * u.km / u.s)) ** 4.02] *)
Definition bh_mass (velocity_dispersion : Quantity) : Quantity :=
  qmul (quantity 134900000 M_sun)
       (qpow (qdiv velocity_dispersion (quantity 200 km_per_s)) (201 # 50)).

Definition log10_bh_mass_lit : Q := 369 # 50.

(** [(measured - reference) / measured]. *)
Definition fractional_error_of (measured reference : Quantity)
  : outcome Quantity :=
  difference <- qsub measured reference ;;
  Ok (qdiv difference measured).

(** [(bh_mass - u.M_sun * 10**log10_bh_mass_lit) / bh_mass] *)
Definition fractional_error (bh_mass : Quantity) : outcome Quantity :=
  fractional_error_of bh_mass
    {| value := fpow (Fin 10) log10_bh_mass_lit; unit := M_sun |}.

Definition ngc7319_distance : Quantity := quantity 98.1 Mpc.

(** [(ngc7319_distance * angular_separation.to_value(u.rad)).to(u.pc) / 2] *)
Definition projected_distance_from_center
  (ngc7319_distance angular_separation : Quantity) : outcome Quantity :=
  theta <- to_value angular_separation rad ;;
  s <- to (qmul_float ngc7319_distance theta) pc ;;
  Ok (qdiv_float s (Fin 2)).

(** [wavelength_centroids[1].to(u.km / u.s,
       u.doppler_relativistic(wavelength_centroids.mean()))] *)
Definition rotation_velocity (wavelength_centroids : QuantityArray)
  : outcome Quantity :=
  shifted <- array_index wavelength_centroids 1 ;;
  to_km_per_s_doppler_relativistic shifted (array_mean wavelength_centroids).

(** [(projected_distance_from_center * rotation_velocity**2 / G).to(u.M_sun)] *)
Definition min_enclosed_mass
  (projected_distance_from_center rotation_velocity : Quantity)
  : outcome Quantity :=
  to (qdiv (qmul projected_distance_from_center (qpow rotation_velocity 2)) G)
     M_sun.

(** [4/3 * np.pi * projected_distance_from_center ** 3] *)
Definition volume (projected_distance_from_center : Quantity) : Quantity :=
  qscale (Fin (4 / 3 * PI)) (qpow projected_distance_from_center 3).

(** [min_enclosed_mass / volume] *)
Definition density (min_enclosed_mass projected_distance_from_center : Quantity)
  : Quantity :=
  qdiv min_enclosed_mass (volume projected_distance_from_center).

Definition TypeError : exn :=
  {| exn_class := "TypeError";
     exn_msg := Some "only dimensionless scalar quantities can be converted to Python scalars"%string |}.

(** [float(q)] on a quantity: its value as a pure number, for a
    dimensionless quantity only. *)
Definition float_of_quantity (q : Quantity) : outcome fval :=
  match to_value q dimensionless with
  | Ok x => Ok x
  | Raise _ => Raise TypeError
  end.

(** [float(min_enclosed_mass / bh_mass)] *)
Definition bh_mass_fraction (min_enclosed_mass bh_mass : Quantity)
  : outcome fval :=
  float_of_quantity (qdiv min_enclosed_mass bh_mass).

(** *** A session with nothing selected

    The smallest session to run the measuring cells on: its state is the
    list of spectral-subset choices, its calls change nothing and its
    plugin has no results. *)
Module Idle.

Definition session : Type := list string.
Definition spectral_subset_choices (st : session) : list string := st.
Definition set_subset (name : string) : M session Datatypes.unit :=
  fun st => (Ok tt, st).
Definition get_results : M session (list result_row) :=
  fun st => (Ok [], st).
Definition get_interactive_regions_keys : M session (list string) :=
  fun st => (Ok [], st).
Definition float (text : string) : outcome fval := Ok NaN.
Definition Unit_of_string (text : string) : outcome Unit := Ok dimensionless.

(** Only the default entry of the plugin's drop-down. *)
Definition nothing_selected : session := ["Entire Spectrum"%string].

(** The default entry and one subset drawn by the user. *)
Definition one_selected : session :=
  ["Entire Spectrum"%string; "Subset 2"%string].

Definition velocity_dispersion : M session Quantity :=
  Notebook.velocity_dispersion session spectral_subset_choices
    set_subset set_subset get_results float Unit_of_string.

Definition wavelength_centroids : M session QuantityArray :=
  Notebook.wavelength_centroids session spectral_subset_choices
    set_subset set_subset get_results get_interactive_regions_keys
    float Unit_of_string.

End Idle.

(** *** A session with one measured line

    A session whose plugin reports the five results of a line at
    4.861 um, the Gaussian sigma width third and the centroid last,
    whatever subsets are chosen.  Its state is the list of
    spectral-subset choices and the names of the interactive regions. *)
Module Scripted.

Definition session : Type := (list string * list string)%type.
Definition spectral_subset_choices (st : session) : list string := fst st.
Definition set_subset (name : string) : M session Datatypes.unit :=
  fun st => (Ok tt, st).
Definition results : list result_row :=
  [ {| row_result := "2.5e-17"; row_unit := "W / m2" |};
    {| row_result := "0.004"; row_unit := "um" |};
    {| row_result := "0.001"; row_unit := "um" |};
    {| row_result := "0.002"; row_unit := "um" |};
    {| row_result := "4.861"; row_unit := "um" |} ].
Definition get_results : M session (list result_row) :=
  fun st => (Ok results, st).
Definition get_interactive_regions_keys : M session (list string) :=
  fun st => (Ok (snd st), st).

Definition ValueError : exn :=
  {| exn_class := "ValueError"; exn_msg := None |}.

(** The two numbers and the one unit this session needs parsed. *)
Definition float (text : string) : outcome fval :=
  if String.eqb text "0.001" then Ok (Fin 0.001)
  else if String.eqb text "4.861" then Ok (Fin 4.861)
  else Raise ValueError.
Definition Unit_of_string (text : string) : outcome Unit :=
  if String.eqb text "um" then Ok um else Raise ValueError.

Definition three_regions : session :=
  (["Entire Spectrum"; "Subset 2"], ["Subset 3"; "Subset 1"; "Subset 4"])%string.

Definition velocity_dispersion : M session Quantity :=
  Notebook.velocity_dispersion session spectral_subset_choices
    set_subset set_subset get_results float Unit_of_string.

Definition wavelength_centroids : M session QuantityArray :=
  Notebook.wavelength_centroids session spectral_subset_choices
    set_subset set_subset get_results get_interactive_regions_keys
    float Unit_of_string.

End Scripted.

(** *** A session that checks subset names

    A plugin that refuses to select a subset that is not among its
    choices; its state is the list of choices. *)
Module Strict.

Definition session : Type := list string.
Definition spectral_subset_choices (st : session) : list string := st.

Definition not_a_choice : exn :=
  {| exn_class := "ValueError"; exn_msg := None |}.

Definition set_subset (name : string) : M session Datatypes.unit :=
  fun st =>
    if existsb (String.eqb name) st then (Ok tt, st)
    else (Raise not_a_choice, st).
Definition get_results : M session (list result_row) :=
  fun st => (Ok [], st).
Definition float (text : string) : outcome fval := Ok NaN.
Definition Unit_of_string (text : string) : outcome Unit := Ok dimensionless.

Definition velocity_dispersion : M session Quantity :=
  Notebook.velocity_dispersion session spectral_subset_choices
    set_subset set_subset get_results float Unit_of_string.

End Strict.

(** *** A session that records the regions it is asked for

    Its state is the spectral-subset choices, the names of the
    interactive regions and the spatial subsets selected so far, oldest
    first.  The plugin reports one centroid, 4.861 um, whatever is
    selected. *)
Module Recording.

Definition session : Type := (list string * list string * list string)%type.
Definition spectral_subset_choices (st : session) : list string :=
  fst (fst st).
Definition set_spatial_subset (name : string) : M session Datatypes.unit :=
  fun st => (Ok tt, (fst st, snd st ++ [name])).
Definition set_spectral_subset (name : string) : M session Datatypes.unit :=
  fun st => (Ok tt, st).
Definition get_results : M session (list result_row) :=
  fun st => (Ok [ {| row_result := "4.861"; row_unit := "um" |} ], st).
Definition get_interactive_regions_keys : M session (list string) :=
  fun st => (Ok (snd (fst st)), st).
Definition float (text : string) : outcome fval := Ok (Fin 4.861).
Definition Unit_of_string (text : string) : outcome Unit := Ok um.

Definition centroid : Quantity := {| value := Fin 4.861; unit := um |}.

Definition wavelength_centroids : M session QuantityArray :=
  Notebook.wavelength_centroids session spectral_subset_choices
    set_spatial_subset set_spectral_subset get_results
    get_interactive_regions_keys float Unit_of_string.

End Recording.

End Notebook.
Export Notebook.

(** ** The same arithmetic in IEEE doubles

    Where rounding, overflow or underflow decide a property, the value
    part of a cell is taken in binary64, the arithmetic numpy computes
    with: decimal literals are the nearest doubles and every operation
    rounds to nearest even.  The unit bookkeeping stays with the
    quantities above; here a quantity is its value in the unit named. *)
Module Binary64.

Local Open Scope float_scope.

Definition ckms : float := 299792.458.

(** astropy's [to_vel_wav]: both wavelengths in Angstrom, the result in
    km/s.  A square [x**2] of a numpy double is the product [x * x]. *)
Definition to_vel_wav (restwav x : float) : float :=
  (x * x - restwav * restwav) / (restwav * restwav + x * x) * ckms.

(** The value of [bh_mass] in solar masses for a velocity dispersion in
    km/s.  [power] is numpy's power of two doubles, which the C library
    computes. *)
Definition bh_mass (power : float -> float -> float)
  (velocity_dispersion : float) : float :=
  134900000 * power (velocity_dispersion / 200) 4.02.

(** The value of [astropy.constants.G] in m3 / (kg s2). *)
Definition G : float := 6.6743e-11.

(** The value of [min_enclosed_mass] in solar masses.  [to_M_sun] is the
    factor by which [.to(u.M_sun)] multiplies, which astropy computes
    from the scales of the units of radius, velocity, G and M_sun. *)
Definition min_enclosed_mass (to_M_sun : float)
  (projected_distance_from_center rotation_velocity : float) : float :=
  projected_distance_from_center * (rotation_velocity * rotation_velocity)
  / G * to_M_sun.

(** The sign bit of a double is clear or the double is nan. *)
Definition clear (X : spec_float) : Prop :=
  match X with
  | S754_nan => True
  | S754_zero s | S754_infinity s | S754_finite s _ _ => s = false
  end.

Definition nan_or_sign_clear (x : float) : Prop := clear (Prim2SF x).

End Binary64.

(** * Properties *)

(** ** Signs, powers and rational bounds *)

Lemma Rsign_pos (r : R) : 0 < r -> Rsign r = Pos.
Proof.
  intros H. unfold Rsign.
  destruct (total_order_T r 0) as [[Hlt | Heq] | Hgt]; try reflexivity; lra.
Qed.

Lemma Rsign_neg (r : R) : r < 0 -> Rsign r = Neg.
Proof.
  intros H. unfold Rsign.
  destruct (total_order_T r 0) as [[Hlt | Heq] | Hgt]; try reflexivity; lra.
Qed.

Lemma Rsign_zero : Rsign 0 = Zero.
Proof.
  unfold Rsign.
  destruct (total_order_T 0 0) as [[Hlt | Heq] | Hgt]; try reflexivity; lra.
Qed.

Lemma Rsign_nonzero (r : R) : r <> 0 -> Rsign r <> Zero.
Proof.
  intros H. unfold Rsign.
  destruct (total_order_T r 0) as [[Hlt | Heq] | Hgt]; congruence.
Qed.

Lemma fdiv_fin (a b : R) : b <> 0 -> fdiv (Fin a) (Fin b) = Fin (a / b).
Proof.
  intros H. simpl. pose proof (Rsign_nonzero b H) as Hs.
  destruct (Rsign b); congruence.
Qed.

Lemma Rpower_base_1 (y : R) : Rpower 1 y = 1.
Proof. unfold Rpower. rewrite ln_1, Rmult_0_r. apply exp_0. Qed.

Lemma exponent_4_02 : Q2R (201 # 50) = 4.02.
Proof. unfold Q2R. simpl. lra. Qed.

Lemma rpow_4_02 (a : R) : rpow a (201 # 50) = Rpower a 4.02.
Proof. unfold rpow. simpl. now rewrite exponent_4_02. Qed.

Lemma rpow_2 (a : R) : rpow a 2 = a * a.
Proof. unfold rpow. simpl. ring. Qed.

Lemma rpow_3 (a : R) : rpow a 3 = a * a * a.
Proof. unfold rpow. simpl. ring. Qed.

(** The square of any finite value, whatever its sign. *)
Lemma fpow_2 (a : R) : fpow (Fin a) 2 = Fin (a * a).
Proof.
  unfold fpow. simpl.
  destruct (Rsign a) eqn:E; rewrite ?rpow_2; try reflexivity.
  unfold Rsign in E.
  destruct (total_order_T a 0) as [[Hlt | Heq] | Hgt]; try discriminate.
  subst a. f_equal. ring.
Qed.

Lemma fpow_3 (a : R) : fpow (Fin a) 3 = Fin (a * a * a).
Proof.
  unfold fpow. simpl.
  destruct (Rsign a) eqn:E; rewrite ?rpow_3; try reflexivity.
  unfold Rsign in E.
  destruct (total_order_T a 0) as [[Hlt | Heq] | Hgt]; try discriminate.
  subst a. f_equal. ring.
Qed.

Lemma PI_pos : 0 < PI.
Proof. exact PI_RGT_0. Qed.

Lemma pc_in_m_pos : 0 < pc_in_m.
Proof.
  unfold pc_in_m, au_in_m. pose proof PI_pos.
  apply Rdiv_lt_0_compat; lra.
Qed.

Lemma pc_in_m_nonzero : pc_in_m <> 0.
Proof. apply Rgt_not_eq. exact pc_in_m_pos. Qed.

Lemma G_si_pos : 0 < G_si.
Proof. unfold G_si. lra. Qed.

Lemma M_sun_in_kg_pos : 0 < M_sun_in_kg.
Proof.
  unfold M_sun_in_kg, GM_sun_si. pose proof G_si_pos.
  apply Rdiv_lt_0_compat; lra.
Qed.

(** ** Doubles: zeros, nans and signs *)

Module Binary64Facts.

Local Open Scope float_scope.

Lemma is_nan_spec (x : float) :
  is_nan x = match Prim2SF x with S754_nan => true | _ => false end.
Proof.
  unfold is_nan. rewrite FloatAxioms.eqb_spec.
  destruct (Prim2SF x) as [ s | s | | s m e ]; try reflexivity.
  - destruct s; reflexivity.
  - unfold SFeqb, SFcompare.
    rewrite Z.compare_refl, Pos.compare_cont_refl.
    destruct s; reflexivity.
Qed.

Lemma is_zero_spec (x : float) :
  is_zero x = match Prim2SF x with S754_zero _ => true | _ => false end.
Proof.
  unfold is_zero. rewrite FloatAxioms.eqb_spec.
  change (Prim2SF zero) with (S754_zero false).
  destruct (Prim2SF x) as [ s | s | | s m e ]; try reflexivity;
    destruct s; reflexivity.
Qed.

Lemma is_infinity_spec (x : float) :
  is_infinity x
  = match Prim2SF x with S754_infinity _ => true | _ => false end.
Proof.
  unfold is_infinity. rewrite FloatAxioms.eqb_spec, FloatAxioms.abs_spec.
  change (Prim2SF infinity) with (S754_infinity false).
  destruct (Prim2SF x) as [ s | s | | s m e ]; reflexivity.
Qed.



Lemma Prim2SF_G :
  exists m e, Prim2SF Binary64.G = S754_finite false m e.
Proof. do 2 eexists. vm_compute. reflexivity. Qed.

(** The result of a rounding has the sign it was given, or is nan. *)
Lemma binary_round_aux_sign (s : bool) (m e : Z) (l : location) :
  match binary_round_aux prec emax s m e l with
  | S754_nan => True
  | S754_zero s' | S754_infinity s' | S754_finite s' _ _ => s' = s
  end.
Proof.
  unfold binary_round_aux.
  destruct (shr_fexp prec emax m e l) as [mrs' e'].
  destruct (shr_fexp prec emax
              (round_nearest_even (shr_m mrs') (loc_of_shr_record mrs'))
              e' loc_Exact) as [mrs'' e''].
  destruct (shr_m mrs''); [ reflexivity | | exact I ].
  destruct (e'' <=? emax - prec)%Z; reflexivity.
Qed.



Lemma mul_opp_opp (v : float) : (- v) * (- v) = v * v.
Proof.
  apply Prim2SF_inj.
  rewrite !FloatAxioms.mul_spec, FloatAxioms.opp_spec.
  destruct (Prim2SF v) as [ s | s | | s m e ]; try reflexivity;
    destruct s; reflexivity.
Qed.

Import Binary64.

Lemma mul_clear (X Y : spec_float) :
  clear X -> clear Y -> clear (SF64mul X Y).
Proof.
  destruct X as [ s | s | | s m e ], Y as [ s' | s' | | s' m' e' ];
    simpl; intros; subst; try reflexivity; try exact I.
  exact (binary_round_aux_sign false _ _ _).
Qed.

Lemma mul_self_clear (X : spec_float) : clear (SF64mul X X).
Proof.
  destruct X as [ s | s | | s m e ]; simpl; try (destruct s; reflexivity);
    try exact I.
  pose proof (binary_round_aux_sign (xorb s s) (Z.pos (m * m)) (e + e)
                loc_Exact) as H.
  destruct s; exact H.
Qed.

Lemma div_clear (X Y : spec_float) :
  clear X -> clear Y -> clear (SF64div X Y).
Proof.
  destruct X as [ s | s | | s m e ], Y as [ s' | s' | | s' m' e' ];
    simpl; intros; subst; try reflexivity; try exact I.
  unfold SF64div, SFdiv.
  destruct (SFdiv_core_binary prec emax (Z.pos m) e (Z.pos m') e')
    as [[mz ez] lz].
  exact (binary_round_aux_sign false _ _ _).
Qed.

Lemma min_enclosed_mass_spec (f r v : float) :
  Prim2SF (Binary64.min_enclosed_mass f r v)
  = SF64mul
      (SF64div (SF64mul (Prim2SF r) (Prim2SF (v * v))) (Prim2SF Binary64.G))
      (Prim2SF f).
Proof.
  unfold Binary64.min_enclosed_mass.
  rewrite (FloatAxioms.mul_spec (r * (v * v) / Binary64.G) f).
  rewrite (FloatAxioms.div_spec (r * (v * v)) Binary64.G).
  rewrite (FloatAxioms.mul_spec r (v * v)).
  reflexivity.
Qed.

(** At radius 0 the enclosed mass is a zero or nan, and which one is
    read off the square of the velocity and the conversion factor. *)
Lemma min_enclosed_mass_zero_radius (f v : float) :
  is_zero (Binary64.min_enclosed_mass f 0 v)
  = negb (is_nan (v * v) || is_infinity (v * v)
          || is_nan f || is_infinity f)
  /\ is_nan (Binary64.min_enclosed_mass f 0 v)
     = (is_nan (v * v) || is_infinity (v * v) || is_nan f || is_infinity f).
Proof.
  rewrite !is_zero_spec, !is_nan_spec, !is_infinity_spec.
  rewrite min_enclosed_mass_spec.
  destruct Prim2SF_G as [mG [eG HG]]. rewrite HG.
  change (Prim2SF 0) with (S754_zero false).
  destruct (Prim2SF (v * v)) as [ s | s | | s m e ],
           (Prim2SF f) as [ s' | s' | | s' m' e' ]; split; reflexivity.
Qed.

Lemma min_enclosed_mass_sign (f r v : float) :
  Binary64.nan_or_sign_clear r -> Binary64.nan_or_sign_clear f ->
  Binary64.nan_or_sign_clear (Binary64.min_enclosed_mass f r v).
Proof.
  unfold Binary64.nan_or_sign_clear.
  intros Hr Hf. rewrite min_enclosed_mass_spec.
  apply mul_clear; [ | exact Hf ].
  apply div_clear.
  - apply mul_clear; [ exact Hr | ].
    rewrite FloatAxioms.mul_spec. apply mul_self_clear.
  - destruct Prim2SF_G as [mG [eG HG]]. rewrite HG. reflexivity.
Qed.

End Binary64Facts.

(** ** The M-sigma relation *)

Lemma bh_mass_unit (u : Unit) (x : fval) :
  dim u = dim km_per_s ->
  unit (bh_mass {| value := x; unit := u |})
  = {| scale := M_sun_in_kg * Rpower (scale u / scale km_per_s) 4.02;
       dim := mass_dims |}.
Proof.
  intros Hd. unfold bh_mass, qmul, qpow, qdiv, quantity, umul, upow, udiv.
  simpl. rewrite Hd. rewrite rpow_4_02. reflexivity.
Qed.

Lemma bh_mass_unit_km_per_s (x : fval) :
  unit (bh_mass {| value := x; unit := km_per_s |}) = M_sun.
Proof.
  rewrite bh_mass_unit by reflexivity.
  unfold M_sun. f_equal.
  replace (scale km_per_s / scale km_per_s) with 1 by (simpl; field).
  rewrite Rpower_base_1. ring.
Qed.

Lemma bh_mass_value_pos (sigma : R) (u : Unit) :
  0 < sigma ->
  value (bh_mass (quantity sigma u))
  = Fin (134900000 * Rpower (sigma / 200) 4.02).
Proof.
  intros H. unfold bh_mass, qmul, qpow, qdiv, quantity. cbn [value].
  rewrite fdiv_fin by lra.
  unfold fpow. cbn [Qnum Z.eqb].
  rewrite Rsign_pos by lra. rewrite rpow_4_02. reflexivity.
Qed.

Lemma quantity_eq (p q : Quantity) :
  value p = value q -> unit p = unit q -> p = q.
Proof. destruct p, q. simpl. intros -> ->. reflexivity. Qed.

(** C1. For a positive velocity dispersion [sigma] in km/s the cell
    returns exactly 1.349e8 * (sigma / 200) ** 4.02 solar masses. *)
Theorem bh_mass_power_law (sigma : R) :
  0 < sigma ->
  bh_mass (quantity sigma km_per_s)
  = quantity (134900000 * Rpower (sigma / 200) 4.02) M_sun.
Proof.
  intros H. apply quantity_eq.
  - now rewrite bh_mass_value_pos.
  - apply bh_mass_unit_km_per_s.
Qed.

Lemma bh_mass_power_law_witness :
  0 < 130 /\
  bh_mass (quantity 130 km_per_s)
  = quantity (134900000 * Rpower (130 / 200) 4.02) M_sun.
Proof. split; [ lra | apply (bh_mass_power_law 130); lra ]. Defined.




(** ** The value at 130 km/s *)

Lemma ratio_pow (a b : Z) (n : nat) :
  (IZR a / IZR b) ^ n = IZR (a ^ Z.of_nat n) / IZR (b ^ Z.of_nat n).
Proof.
  unfold Rdiv. rewrite Rpow_mult_distr, pow_inv, <- !pow_IZR. reflexivity.
Qed.

Lemma ratio_lt (a b c d : Z) :
  (0 < b)%Z -> (0 < d)%Z -> (a * d < c * b)%Z -> IZR a / IZR b < IZR c / IZR d.
Proof.
  intros Hb Hd H.
  apply IZR_lt in Hb, Hd, H. rewrite !mult_IZR in H.
  apply Rmult_lt_reg_r with (IZR b * IZR d).
  - apply Rmult_lt_0_compat; assumption.
  - replace (IZR a / IZR b * (IZR b * IZR d)) with (IZR a * IZR d)
      by (field; lra).
    replace (IZR c / IZR d * (IZR b * IZR d)) with (IZR c * IZR b)
      by (field; lra).
    exact H.
Qed.

(** The fiftieth root of 13/20 lies between 0.9914 and 0.9915. *)
Lemma root50_lower : (4957 / 5000) ^ 50 < 13 / 20.
Proof.
  rewrite ratio_pow. apply ratio_lt; [ reflexivity | reflexivity | ].
  vm_compute. reflexivity.
Qed.

Lemma root50_upper : 13 / 20 < (1983 / 2000) ^ 50.
Proof.
  rewrite ratio_pow. apply ratio_lt; [ reflexivity | reflexivity | ].
  vm_compute. reflexivity.
Qed.

Lemma Rpower_root50 (x : R) : 0 < x -> Rpower x (/ 50) ^ 50 = x.
Proof.
  intros H.
  rewrite <- Rpower_pow by (unfold Rpower; apply exp_pos).
  rewrite Rpower_mult.
  replace (/ 50 * INR 50) with 1 by (rewrite INR_IZR_INZ; simpl; lra).
  now apply Rpower_1.
Qed.

Lemma Rpower_4_02_split (x : R) :
  0 < x -> Rpower x 4.02 = x ^ 4 * Rpower x (/ 50).
Proof.
  intros H.
  replace 4.02 with (INR 4 + / 50) by (rewrite INR_IZR_INZ; simpl; lra).
  rewrite Rpower_plus, Rpower_pow by assumption. reflexivity.
Qed.

Lemma pow_lt_reg (a b : R) (n : nat) : 0 <= a -> 0 <= b -> a ^ n < b ^ n -> a < b.
Proof.
  intros Ha Hb H.
  destruct (Rlt_le_dec a b) as [Hlt | Hle]; [ assumption | ].
  exfalso. pose proof (pow_incr b a n (conj Hb Hle)). lra.
Qed.

Lemma power_law_130_bounds :
  23870000 < 134900000 * Rpower (130 / 200) 4.02 < 23880000.
Proof.
  replace (130 / 200) with (13 / 20) by field.
  rewrite Rpower_4_02_split by lra.
  set (y := Rpower (13 / 20) (/ 50)).
  assert (Hy : 0 < y) by (unfold y, Rpower; apply exp_pos).
  assert (Hp : y ^ 50 = 13 / 20) by (unfold y; apply Rpower_root50; lra).
  assert (Hlo : 4957 / 5000 < y).
  { apply pow_lt_reg with 50%nat; [ lra | lra | ].
    rewrite Hp. exact root50_lower. }
  assert (Hhi : y < 1983 / 2000).
  { apply pow_lt_reg with 50%nat; [ lra | lra | ].
    rewrite Hp. exact root50_upper. }
  replace ((13 / 20) ^ 4) with (28561 / 160000) by field.
  lra.
Qed.

(** C7, as stated, fails: at 130 km/s the mass is not within 40 percent
    of 1.69e7 solar masses. *)
Lemma mass_at_130_not_1_69e7 :
  ~ approximately 0.4 16900000 (value (bh_mass (quantity 130 km_per_s))).
Proof.
  rewrite bh_mass_value_pos by lra. simpl.
  pose proof power_law_130_bounds as [Hlo Hhi].
  intros H.
  rewrite (Rabs_pos_eq 16900000) in H by lra.
  rewrite Rabs_pos_eq in H by lra.
  lra.
Qed.

(** C7, amended. At 130 km/s the cell yields about 2.39e7 solar masses:
    a mass between 2.387e7 and 2.388e7. *)
Theorem mass_at_130_km_per_s :
  exists mass : R,
    bh_mass (quantity 130 km_per_s) = quantity mass M_sun
    /\ 23870000 < mass < 23880000
    /\ approximately 0.002 23900000 (Fin mass).
Proof.
  exists (134900000 * Rpower (130 / 200) 4.02).
  pose proof power_law_130_bounds as [Hlo Hhi].
  split.
  { apply quantity_eq;
      [ now rewrite bh_mass_value_pos by lra | apply bh_mass_unit_km_per_s ]. }
  split; [ lra | ].
  simpl. rewrite (Rabs_pos_eq 23900000) by lra.
  apply Rabs_le. lra.
Qed.

(** ** The relativistic Doppler conversion *)

Lemma to_vel_wav_fin (r x : R) :
  r * r + x * x <> 0 ->
  to_vel_wav (Fin r) (Fin x)
  = Fin ((x * x - r * r) / (r * r + x * x) * ckms).
Proof.
  intros H. unfold to_vel_wav. rewrite !fpow_2.
  unfold fsub, fopp, fadd. rewrite fdiv_fin by assumption.
  reflexivity.
Qed.

Lemma to_value_fin (a : R) (u v : Unit) :
  dim u = dim v ->
  to_value (quantity a u) v = Ok (Fin (a * (scale u / scale v))).
Proof.
  intros H. unfold to_value, convertible, quantity. cbn [unit value].
  rewrite H.
  assert (E : dims_eqb (dim v) (dim v) = true).
  { unfold dims_eqb. rewrite !Qeq_bool_refl. reflexivity. }
  rewrite E. reflexivity.
Qed.

(** On two wavelengths the equivalency takes its Angstrom branch. *)
Lemma doppler_of_wavelengths (q rest : Quantity) :
  dim (unit q) = length_dims -> dim (unit rest) = length_dims ->
  to_km_per_s_doppler_relativistic q rest
  = (x <- to_value q AA ;;
     restwav <- to_value rest AA ;;
     Ok {| value := to_vel_wav restwav x; unit := km_per_s |}).
Proof.
  intros Hq Hr.
  unfold to_km_per_s_doppler_relativistic, spectral_of, to_value_spectral.
  unfold convertible. rewrite Hq, Hr. reflexivity.
Qed.

Lemma doppler_wavelengths (a b : R) (u v : Unit) :
  dim u = length_dims -> dim v = length_dims ->
  let x := a * (scale u / scale AA) in
  let restwav := b * (scale v / scale AA) in
  restwav * restwav + x * x <> 0 ->
  to_km_per_s_doppler_relativistic (quantity a u) (quantity b v)
  = Ok (quantity ((x * x - restwav * restwav)
                  / (restwav * restwav + x * x) * ckms) km_per_s).
Proof.
  intros Hu Hv x restwav H.
  rewrite doppler_of_wavelengths by assumption.
  rewrite !to_value_fin by (rewrite ?Hu, ?Hv; reflexivity).
  cbn [bind]. fold x restwav.
  rewrite to_vel_wav_fin by assumption. reflexivity.
Qed.

Lemma scaled_wavelength_pos (w : R) (u : Unit) :
  0 < w -> 0 < scale u -> 0 < w * (scale u / scale AA).
Proof.
  intros Hw Hu. apply Rmult_lt_0_compat; [ assumption | ].
  apply Rdiv_lt_0_compat; [ assumption | ].
  simpl. apply Rinv_0_lt_compat. lra.
Qed.





(** At 48610 Angstrom the square is in range and the velocity is 0. *)
Lemma zero_shift_at_48610_angstrom :
  Binary64.to_vel_wav 48610 48610 = 0%float.
Proof. vm_compute. reflexivity. Qed.

(** ** The fractional error *)

Lemma Qeq_bool_self_difference (q : Q) : Qeq_bool (Qred (q - q)) 0 = true.
Proof. apply Qeq_bool_iff. rewrite Qred_correct. ring. Qed.

Lemma udiv_self_dimensionless (u : Unit) :
  scale u <> 0 ->
  scale (udiv u u) = 1 /\ convertible (udiv u u) dimensionless = true.
Proof.
  intros H. split.
  - simpl. now field.
  - unfold convertible, dims_eqb. cbn [udiv dim dims_div dimensionless
      dimensionless_dims d_length d_mass d_time d_angle].
    rewrite !Qeq_bool_self_difference. reflexivity.
Qed.

Lemma fractional_error_of_fin (a b : R) (u : Unit) :
  a <> 0 -> scale u <> 0 ->
  fractional_error_of (quantity a u) (quantity b u)
  = Ok {| value := Fin ((a - b) / a); unit := udiv u u |}.
Proof.
  intros Ha Hu. unfold fractional_error_of, qsub.
  rewrite to_value_fin by reflexivity.
  cbn [bind value unit quantity]. unfold qdiv. cbn [value unit].
  unfold fsub, fopp, fadd. cbn [value unit quantity].
  rewrite fdiv_fin by assumption.
  do 3 f_equal. now field.
Qed.

Lemma literature_mass : fpow (Fin 10) log10_bh_mass_lit = Fin (Rpower 10 7.38).
Proof.
  unfold fpow, log10_bh_mass_lit. cbn [Qnum Z.eqb].
  rewrite Rsign_pos by lra. unfold rpow.
  change (is_integer (369 # 50)) with false. cbv iota.
  do 2 f_equal. unfold Q2R. simpl. lra.
Qed.

(** C9. The fractional error is (measured - reference) / measured, with
    the measured value as the denominator: for the two-operand
    expression, for the cell against the literature mass, and with value
    exactly 0 when both operands are the same non-zero quantity. *)
Theorem fractional_error_measured (a b : R) (u : Unit) :
  a <> 0 -> scale u <> 0 ->
  fractional_error_of (quantity a u) (quantity b u)
  = Ok {| value := Fin ((a - b) / a); unit := udiv u u |}
  /\ fractional_error (quantity a M_sun)
     = Ok {| value := Fin ((a - Rpower 10 7.38) / a);
             unit := udiv M_sun M_sun |}
  /\ fractional_error_of (quantity a u) (quantity a u)
     = Ok {| value := Fin 0; unit := udiv u u |}
  /\ scale (udiv u u) = 1
  /\ convertible (udiv u u) dimensionless = true.
Proof.
  intros Ha Hu. repeat split.
  - now apply fractional_error_of_fin.
  - unfold fractional_error. rewrite literature_mass.
    apply (fractional_error_of_fin a (Rpower 10 7.38) M_sun Ha).
    pose proof M_sun_in_kg_pos. simpl. lra.
  - rewrite fractional_error_of_fin by assumption.
    do 3 f_equal. now field.
  - now apply udiv_self_dimensionless.
  - now apply udiv_self_dimensionless.
Qed.

Lemma fractional_error_measured_witness :
  fractional_error_of (quantity 3 kg) (quantity 2 kg)
  = Ok {| value := Fin ((3 - 2) / 3); unit := udiv kg kg |}
  /\ fractional_error (quantity 3 M_sun)
     = Ok {| value := Fin ((3 - Rpower 10 7.38) / 3);
             unit := udiv M_sun M_sun |}
  /\ fractional_error_of (quantity 3 kg) (quantity 3 kg)
     = Ok {| value := Fin 0; unit := udiv kg kg |}
  /\ scale (udiv kg kg) = 1
  /\ convertible (udiv kg kg) dimensionless = true.
Proof. apply (fractional_error_measured 3 2 kg); simpl; lra. Defined.

(** ** Projected distance, enclosed mass and density *)

Lemma projected_distance_fin (d t : R) (uD uA : Unit) :
  dim uD = length_dims -> dim uA = angle_dims ->
  projected_distance_from_center (quantity d uD) (quantity t uA)
  = Ok (quantity (d * (scale uD / pc_in_m) * (t * scale uA) / 2) pc).
Proof.
  intros HD HA. unfold projected_distance_from_center.
  rewrite to_value_fin by (rewrite HA; reflexivity).
  cbn [bind]. unfold to.
  change (qmul_float (quantity d uD) (Fin (t * (scale uA / scale rad))))
    with (quantity (d * (t * (scale uA / scale rad))) uD).
  rewrite to_value_fin by (rewrite HD; reflexivity).
  cbn [bind]. unfold qdiv_float. cbn [value unit].
  rewrite fdiv_fin by lra.
  unfold quantity. do 3 f_equal. cbn [scale rad pc]. field.
  apply Rgt_not_eq. exact pc_in_m_pos.
Qed.

Lemma min_enclosed_mass_fin (r b : R) (ur uv : Unit) :
  dim ur = length_dims -> dim uv = velocity_dims ->
  min_enclosed_mass (quantity r ur) (quantity b uv)
  = Ok (quantity (r * (b * b) / G_si
                  * (scale ur * (scale uv * scale uv) / M_sun_in_kg)) M_sun).
Proof.
  intros Hr Hv. unfold min_enclosed_mass, to, to_value.
  assert (E : convertible
                (unit (qdiv (qmul (quantity r ur) (qpow (quantity b uv) 2)) G))
                M_sun = true).
  { unfold convertible. cbn [unit qdiv qmul qpow quantity udiv umul upow dim G].
    rewrite Hr, Hv. reflexivity. }
  rewrite E. cbn [bind].
  unfold qdiv, qmul, qpow, quantity. cbn [value unit G quantity].
  rewrite fpow_2. cbn [fmul].
  rewrite fdiv_fin by (apply Rgt_not_eq; exact G_si_pos).
  cbn [fmul]. do 3 f_equal.
  cbn [scale udiv umul upow metre kg second M_sun].
  rewrite !rpow_2, rpow_3. field.
  split; apply Rgt_not_eq; [ exact M_sun_in_kg_pos | exact G_si_pos ].
Qed.

Lemma volume_fin (r : R) (u : Unit) :
  volume (quantity r u)
  = {| value := Fin (4 / 3 * PI * (r * r * r)); unit := upow u 3 |}.
Proof.
  unfold volume, qscale, qpow, quantity. cbn [value unit].
  rewrite fpow_3. reflexivity.
Qed.

Lemma density_fin (mass r : R) (um ur : Unit) :
  r <> 0 ->
  density (quantity mass um) (quantity r ur)
  = {| value := Fin (mass / (4 / 3 * PI * (r * r * r)));
       unit := udiv um (upow ur 3) |}.
Proof.
  intros H. unfold density. rewrite volume_fin.
  unfold qdiv, quantity. cbn [value unit].
  rewrite fdiv_fin; [ reflexivity | ].
  pose proof PI_pos.
  assert (r * r * r <> 0) by (repeat apply Rmult_integral_contrapositive_currified; assumption).
  apply Rmult_integral_contrapositive_currified; [ lra | assumption ].
Qed.

(** C3, as stated, fails: for the distance of NGC 7319 and a separation
    of one arcsecond the cell does not return the distance times the
    angle in radians. *)
Lemma projected_distance_not_full_separation :
  ~ (exists q,
        projected_distance_from_center ngc7319_distance (quantity 1 arcsec)
        = Ok q
        /\ si_value q
           = fmul (si_value ngc7319_distance) (Fin (1 * scale arcsec))).
Proof.
  intros [q [Hq Hsi]].
  unfold ngc7319_distance in Hq.
  rewrite projected_distance_fin in Hq by reflexivity.
  injection Hq as <-.
  unfold si_value, ngc7319_distance, quantity in Hsi.
  cbn [value unit fmul] in Hsi. injection Hsi as H.
  cbn [scale Mpc pc arcsec] in H.
  pose proof pc_in_m_pos as Hpc. pose proof PI_pos as Hpi.
  replace (98.1 * (1000000 * pc_in_m / pc_in_m) * (1 * (PI / 648000)) / 2
           * pc_in_m)
    with (98.1 * (1000000 * pc_in_m) * (1 * (PI / 648000)) / 2) in H
    by (field; apply pc_in_m_nonzero).
  assert (Hx : 0 < pc_in_m * PI) by now apply Rmult_lt_0_compat.
  nra.
Qed.

(** C3, amended. The cell returns, in parsecs, half of the distance
    times the angular separation in radians, for every distance in a
    length unit and every separation in an angle unit; the angle is
    converted to radians before the multiplication. *)
Theorem projected_distance_half_small_angle (d t : R) (uD uA : Unit) :
  dim uD = length_dims -> dim uA = angle_dims ->
  to_value (quantity t uA) rad = Ok (Fin (t * (scale uA / scale rad)))
  /\ projected_distance_from_center (quantity d uD) (quantity t uA)
     = Ok (quantity (d * (scale uD / pc_in_m) * (t * scale uA) / 2) pc).
Proof.
  intros HD HA. split.
  - apply to_value_fin. rewrite HA. reflexivity.
  - now apply projected_distance_fin.
Qed.

Lemma projected_distance_half_small_angle_witness :
  to_value (quantity 1 arcsec) rad
  = Ok (Fin (1 * (scale arcsec / scale rad)))
  /\ projected_distance_from_center (quantity 98.1 Mpc) (quantity 1 arcsec)
     = Ok (quantity (98.1 * (scale Mpc / pc_in_m) * (1 * scale arcsec) / 2) pc).
Proof.
  apply (projected_distance_half_small_angle 98.1 1 Mpc arcsec); reflexivity.
Defined.

(** C8, as stated, fails: at radius 0 a velocity of 1e200 km/s has a
    square that overflows, and 0 times infinity is nan: the mass is not
    0, whatever the conversion to solar masses multiplies by. *)
Lemma zero_radius_overflow_is_nan :
  PrimFloat.is_infinity (1e200 * 1e200)%float = true
  /\ (forall to_M_sun : float,
        PrimFloat.is_nan (Binary64.min_enclosed_mass to_M_sun 0 1e200)
        = true).
Proof.
  assert (E : PrimFloat.is_infinity (1e200 * 1e200)%float = true)
    by (vm_compute; reflexivity).
  assert (N : PrimFloat.is_nan (1e200 * 1e200)%float = false)
    by (vm_compute; reflexivity).
  split; [ exact E | ].
  intros f.
  destruct (Binary64Facts.min_enclosed_mass_zero_radius f 1e200%float)
    as [_ H].
  rewrite H, E, N. reflexivity.
Qed.

(** C8, amended. In exact arithmetic, for a radius [r >= 0] and any
    velocity the enclosed mass is radius * velocity**2 / G: it is 0 for
    radius 0, never negative, and the same for a velocity and its
    opposite.  In doubles, at radius 0 the mass is a zero exactly when
    neither the square of the velocity nor the conversion factor is
    infinite or nan, and nan otherwise; the mass is the same double for
    a velocity and its opposite; and for a radius and a conversion
    factor with clear sign bits it is nan or has a clear sign bit. *)
Theorem min_enclosed_mass_formula
  (r b : R) (ur uv : Unit) (to_M_sun radius velocity : float) :
  0 <= r -> 0 < scale ur ->
  dim ur = length_dims -> dim uv = velocity_dims ->
  (exists mass : R,
     min_enclosed_mass (quantity r ur) (quantity b uv)
     = Ok (quantity mass M_sun)
     /\ mass * M_sun_in_kg = (r * scale ur) * (b * scale uv) ^ 2 / G_si
     /\ 0 <= mass
     /\ (r = 0 -> mass = 0)
     /\ min_enclosed_mass (quantity r ur) (quantity (- b) uv)
        = Ok (quantity mass M_sun))
  /\ PrimFloat.is_zero (Binary64.min_enclosed_mass to_M_sun 0 velocity)
     = negb (PrimFloat.is_nan (velocity * velocity)
             || PrimFloat.is_infinity (velocity * velocity)
             || PrimFloat.is_nan to_M_sun
             || PrimFloat.is_infinity to_M_sun)%float
  /\ PrimFloat.is_nan (Binary64.min_enclosed_mass to_M_sun 0 velocity)
     = (PrimFloat.is_nan (velocity * velocity)
        || PrimFloat.is_infinity (velocity * velocity)
        || PrimFloat.is_nan to_M_sun
        || PrimFloat.is_infinity to_M_sun)%float
  /\ Binary64.min_enclosed_mass to_M_sun radius (- velocity)%float
     = Binary64.min_enclosed_mass to_M_sun radius velocity
  /\ (Binary64.nan_or_sign_clear radius ->
      Binary64.nan_or_sign_clear to_M_sun ->
      Binary64.nan_or_sign_clear
        (Binary64.min_enclosed_mass to_M_sun radius velocity)).
Proof.
  intros Hr Hs Hdr Hdv.
  split; [ | split; [ | split; [ | split ] ] ].
  - pose proof G_si_pos as HG. pose proof M_sun_in_kg_pos as HM.
    assert (HG0 : G_si <> 0) by (apply Rgt_not_eq; exact HG).
    assert (HM0 : M_sun_in_kg <> 0) by (apply Rgt_not_eq; exact HM).
    eexists. split; [ now apply min_enclosed_mass_fin | ].
    split; [ now field | ].
    split; [ | split ].
    + replace (r * (b * b) / G_si
               * (scale ur * (scale uv * scale uv) / M_sun_in_kg))
        with (r * scale ur * ((b * scale uv) * (b * scale uv))
              * (/ G_si * / M_sun_in_kg)) by now field.
      apply Rmult_le_pos; [ apply Rmult_le_pos | ].
      * apply Rmult_le_pos; lra.
      * apply Rle_0_sqr.
      * apply Rlt_le, Rmult_lt_0_compat; now apply Rinv_0_lt_compat.
    + intros ->. unfold Rdiv. ring.
    + rewrite min_enclosed_mass_fin by assumption.
      do 2 f_equal. now field.
  - exact (proj1 (Binary64Facts.min_enclosed_mass_zero_radius
                    to_M_sun velocity)).
  - exact (proj2 (Binary64Facts.min_enclosed_mass_zero_radius
                    to_M_sun velocity)).
  - unfold Binary64.min_enclosed_mass.
    now rewrite Binary64Facts.mul_opp_opp.
  - apply Binary64Facts.min_enclosed_mass_sign.
Qed.

Lemma min_enclosed_mass_formula_witness :
  (exists mass : R,
     min_enclosed_mass (quantity 50 pc) (quantity 100 km_per_s)
     = Ok (quantity mass M_sun)
     /\ mass * M_sun_in_kg = (50 * scale pc) * (100 * scale km_per_s) ^ 2 / G_si
     /\ 0 <= mass
     /\ (50 = 0 -> mass = 0)
     /\ min_enclosed_mass (quantity 50 pc) (quantity (- 100) km_per_s)
        = Ok (quantity mass M_sun))
  /\ PrimFloat.is_zero (Binary64.min_enclosed_mass 232.5 0 100)
     = negb (PrimFloat.is_nan (100 * 100)
             || PrimFloat.is_infinity (100 * 100)
             || PrimFloat.is_nan 232.5
             || PrimFloat.is_infinity 232.5)%float
  /\ PrimFloat.is_nan (Binary64.min_enclosed_mass 232.5 0 100)
     = (PrimFloat.is_nan (100 * 100)
        || PrimFloat.is_infinity (100 * 100)
        || PrimFloat.is_nan 232.5
        || PrimFloat.is_infinity 232.5)%float
  /\ Binary64.min_enclosed_mass 232.5 50 (- 100)%float
     = Binary64.min_enclosed_mass 232.5 50 100
  /\ (Binary64.nan_or_sign_clear 50 ->
      Binary64.nan_or_sign_clear 232.5 ->
      Binary64.nan_or_sign_clear (Binary64.min_enclosed_mass 232.5 50 100)).
Proof.
  apply (min_enclosed_mass_formula 50 100 pc km_per_s
           232.5%float 50%float 100%float).
  - lra.
  - exact pc_in_m_pos.
  - reflexivity.
  - reflexivity.
Defined.

(** C10. The radius used downstream is half of the distance times the
    separation in radians: the enclosed mass is (D * theta / 2) * v**2 / G
    and the density is that mass over the sphere of the same halved
    radius. *)
Theorem halved_radius_feeds_mass_and_density (d t b : R) (uD uA : Unit) :
  dim uD = length_dims -> dim uA = angle_dims ->
  let radius := d * (scale uD / pc_in_m) * (t * scale uA) / 2 in
  let mass :=
    radius * (b * b) / G_si
    * (pc_in_m * (scale km_per_s * scale km_per_s) / M_sun_in_kg) in
  projected_distance_from_center (quantity d uD) (quantity t uA)
  = Ok (quantity radius pc)
  /\ min_enclosed_mass (quantity radius pc) (quantity b km_per_s)
     = Ok (quantity mass M_sun)
  /\ mass * M_sun_in_kg
     = (d * scale uD * (t * scale uA) / 2) * (b * 1000) ^ 2 / G_si
  /\ (radius <> 0 ->
      density (quantity mass M_sun) (quantity radius pc)
      = {| value := Fin (mass / (4 / 3 * PI * (radius * radius * radius)));
           unit := udiv M_sun (upow pc 3) |}).
Proof.
  intros HD HA radius mass.
  assert (HG0 : G_si <> 0) by (apply Rgt_not_eq; exact G_si_pos).
  assert (HM0 : M_sun_in_kg <> 0) by (apply Rgt_not_eq; exact M_sun_in_kg_pos).
  pose proof pc_in_m_nonzero as Hpc.
  split; [ now apply projected_distance_fin | ].
  split; [ now apply min_enclosed_mass_fin | ].
  split.
  - unfold mass, radius. cbn [scale km_per_s udiv km second]. now field.
  - intros Hr. now apply density_fin.
Qed.

Lemma halved_radius_feeds_mass_and_density_witness :
  let radius := 98.1 * (scale Mpc / pc_in_m) * (1 * scale arcsec) / 2 in
  let mass :=
    radius * (100 * 100) / G_si
    * (pc_in_m * (scale km_per_s * scale km_per_s) / M_sun_in_kg) in
  projected_distance_from_center (quantity 98.1 Mpc) (quantity 1 arcsec)
  = Ok (quantity radius pc)
  /\ min_enclosed_mass (quantity radius pc) (quantity 100 km_per_s)
     = Ok (quantity mass M_sun)
  /\ mass * M_sun_in_kg
     = (98.1 * scale Mpc * (1 * scale arcsec) / 2) * (100 * 1000) ^ 2 / G_si
  /\ (radius <> 0 ->
      density (quantity mass M_sun) (quantity radius pc)
      = {| value := Fin (mass / (4 / 3 * PI * (radius * radius * radius)));
           unit := udiv M_sun (upow pc 3) |}).
Proof.
  apply (halved_radius_feeds_mass_and_density 98.1 1 100 Mpc arcsec);
    reflexivity.
Defined.

(** ** The guard of the measuring cells *)

Section Guard.

Variable session : Type.
Variable spectral_subset_choices : session -> list string.
Variable set_spatial_subset : string -> M session Datatypes.unit.
Variable set_spectral_subset : string -> M session Datatypes.unit.
Variable get_results : M session (list result_row).
Variable get_interactive_regions_keys : M session (list string).
Variable float : string -> outcome fval.
Variable Unit_of_string : string -> outcome Unit.

Lemma no_subset_available (st : session) :
  length (spectral_subset_choices st) = 1%nat ->
  available_spectral_subsets session spectral_subset_choices st = 0%Z.
Proof. intros H. unfold available_spectral_subsets. rewrite H. reflexivity. Qed.

(** C4, amended. When the plugin offers no spectral subset besides its
    default entry, both measuring cells raise a plain [Exception] with
    the "Please select a spectral region" message, at once: whatever the
    plugin calls would do, none is made, the session is left as it was
    and no quantity is computed. *)
Theorem no_selection_raises_exception (st : session) :
  length (spectral_subset_choices st) = 1%nat ->
  velocity_dispersion session spectral_subset_choices set_spatial_subset
    set_spectral_subset get_results float Unit_of_string st
  = (Raise please_select, st)
  /\ wavelength_centroids session spectral_subset_choices set_spatial_subset
       set_spectral_subset get_results get_interactive_regions_keys
       float Unit_of_string st
     = (Raise please_select, st)
  /\ exn_class please_select = "Exception"%string.
Proof.
  intros H. apply no_subset_available in H.
  unfold velocity_dispersion, wavelength_centroids. rewrite H.
  repeat split.
Qed.

End Guard.

Lemma no_selection_raises_exception_witness :
  Idle.velocity_dispersion Idle.nothing_selected
  = (Raise please_select, Idle.nothing_selected)
  /\ Idle.wavelength_centroids Idle.nothing_selected
     = (Raise please_select, Idle.nothing_selected)
  /\ exn_class please_select = "Exception"%string.
Proof.
  apply (no_selection_raises_exception Idle.session
           Idle.spectral_subset_choices Idle.set_subset Idle.set_subset
           Idle.get_results Idle.get_interactive_regions_keys
           Idle.float Idle.Unit_of_string Idle.nothing_selected).
  reflexivity.
Defined.

(** C4, as stated, fails: with nothing selected the cell raises, but not
    an exception of class InsufficientInputError. *)
Lemma no_selection_not_insufficient_input :
  ~ raises (fst (Idle.velocity_dispersion Idle.nothing_selected))
      "InsufficientInputError".
Proof.
  intros [e [He Hc]]. cbv in He. injection He as <-. discriminate Hc.
Qed.

(** ** What the cells do outside the domain of their formulas *)

Lemma bh_mass_zero : bh_mass (quantity 0 km_per_s) = quantity 0 M_sun.
Proof.
  apply quantity_eq; [ | apply bh_mass_unit_km_per_s ].
  unfold bh_mass, qmul, qpow, qdiv, quantity. cbn [value].
  rewrite fdiv_fin by lra.
  replace (0 / 200) with 0 by field.
  unfold fpow. cbn [Qnum Z.eqb]. rewrite Rsign_zero.
  cbn. f_equal. ring.
Qed.

Lemma bh_mass_negative (x : R) :
  x < 0 -> bh_mass (quantity x km_per_s) = {| value := NaN; unit := M_sun |}.
Proof.
  intros H. apply quantity_eq; [ | apply bh_mass_unit_km_per_s ].
  unfold bh_mass, qmul, qpow, qdiv, quantity. cbn [value].
  rewrite fdiv_fin by lra.
  unfold fpow. cbn [Qnum Z.eqb].
  rewrite Rsign_neg by lra. reflexivity.
Qed.

Lemma density_zero_radius (mass : R) (um ur : Unit) :
  value (density (quantity mass um) (quantity 0 ur))
  = match Rsign mass with
    | Zero => NaN
    | Neg => Inf true
    | Pos => Inf false
    end.
Proof.
  unfold density. rewrite volume_fin. unfold qdiv, quantity. cbn [value].
  replace (4 / 3 * PI * (0 * 0 * 0)) with 0 by ring.
  unfold fdiv. rewrite Rsign_zero. reflexivity.
Qed.

Lemma fractional_error_zero_mass :
  fractional_error (quantity 0 M_sun)
  = Ok {| value := Inf true; unit := udiv M_sun M_sun |}.
Proof.
  unfold fractional_error, fractional_error_of, qsub.
  rewrite literature_mass.
  change {| value := Fin (Rpower 10 7.38); unit := M_sun |}
    with (quantity (Rpower 10 7.38) M_sun).
  rewrite to_value_fin by reflexivity.
  cbn [bind]. unfold qdiv, quantity. cbn [value unit].
  do 2 f_equal.
  unfold fsub, fopp, fadd, fdiv. rewrite Rsign_zero.
  rewrite Rsign_neg; [ reflexivity | ].
  assert (0 < Rpower 10 7.38) by (unfold Rpower; apply exp_pos).
  replace (scale M_sun / scale M_sun) with 1
    by (simpl; field; apply Rgt_not_eq; exact M_sun_in_kg_pos).
  lra.
Qed.

(** C2, as stated, fails: a negative velocity dispersion raises nothing;
    the cell returns a mass whose value is nan. *)
Lemma negative_dispersion_returns_nan :
  bh_mass (quantity (-130) km_per_s) = {| value := NaN; unit := M_sun |}
  /\ ~ raises (Ok (bh_mass (quantity (-130) km_per_s))) "DomainError".
Proof.
  split.
  - apply bh_mass_negative. lra.
  - intros [e [He _]]. discriminate He.
Qed.

Lemma fractional_error_decides (q : Quantity) :
  (convertible M_sun (unit q) = true ->
   exists f : Quantity, fractional_error q = Ok f)
  /\ (convertible M_sun (unit q) = false ->
      fractional_error q = Raise UnitConversionError).
Proof.
  unfold fractional_error, fractional_error_of, qsub, to_value. cbn [unit].
  destruct (convertible M_sun (unit q)); split; intros H;
    try discriminate H; [ eexists | ]; reflexivity.
Qed.

Lemma projected_distance_decides (D theta : Quantity) :
  (convertible (unit theta) rad = true ->
   convertible (unit D) pc = true ->
   exists s : Quantity, projected_distance_from_center D theta = Ok s)
  /\ (convertible (unit theta) rad = false
      \/ convertible (unit D) pc = false ->
      projected_distance_from_center D theta = Raise UnitConversionError).
Proof.
  unfold projected_distance_from_center, to, to_value.
  destruct (convertible (unit theta) rad); cbn [bind qmul_float unit];
    destruct (convertible (unit D) pc); split; intros;
    try discriminate; try (eexists; reflexivity); try reflexivity;
    match goal with H : _ \/ _ |- _ => destruct H; discriminate end.
Qed.

Lemma min_enclosed_mass_decides (r v : Quantity) :
  let u := udiv (umul (unit r) (upow (unit v) 2)) (unit G) in
  (convertible u M_sun = true ->
   exists mass : Quantity, min_enclosed_mass r v = Ok mass)
  /\ (convertible u M_sun = false ->
      min_enclosed_mass r v = Raise UnitConversionError).
Proof.
  intros u. unfold min_enclosed_mass, to, to_value.
  change (unit (qdiv (qmul r (qpow v 2)) G)) with u.
  destruct (convertible u M_sun); split; intros H;
    try discriminate H; [ eexists | ]; reflexivity.
Qed.

Lemma doppler_raises (q rest : Quantity) (e : exn) :
  to_km_per_s_doppler_relativistic q rest = Raise e ->
  e = UnitConversionError \/ e = UnitsError.
Proof.
  unfold to_km_per_s_doppler_relativistic, to_value_spectral, to, to_value.
  destruct (spectral_of (unit rest)) as [ kind | ] eqn:E.
  - destruct (convertible (unit q) km_per_s); [ discriminate | ].
    destruct (convertible (unit q) Hz).
    { cbn [bind]. destruct (convertible (unit rest) Hz); discriminate. }
    destruct (convertible (unit q) AA).
    { cbn [bind]. destruct (convertible (unit rest) AA); discriminate. }
    destruct (convertible (unit q) eV).
    { cbn [bind]. destruct (convertible (unit rest) eV); discriminate. }
    intros H. injection H as <-. now left.
  - intros H. injection H as <-. now right.
Qed.

Lemma velocity_dispersion_raises
  (centroid_wavelength sigma_width : Quantity) (e : exn) :
  velocity_dispersion_of centroid_wavelength sigma_width = Raise e ->
  e = UnitConversionError \/ e = UnitsError.
Proof.
  unfold velocity_dispersion_of, qadd, to_value.
  destruct (convertible (unit sigma_width) (unit centroid_wavelength)).
  - cbn [bind]. apply doppler_raises.
  - intros H. injection H as <-. now left.
Qed.

Lemma rotation_velocity_raises (a : QuantityArray) (e : exn) :
  rotation_velocity a = Raise e ->
  e = out_of_bounds 1 (length (values a))
  \/ e = UnitConversionError \/ e = UnitsError.
Proof.
  unfold rotation_velocity, array_index.
  destruct (nth_error (values a) 1).
  - cbn [bind]. intros H. right. now apply doppler_raises in H.
  - intros H. injection H as <-. now left.
Qed.

(** C2, amended. The cells check no precondition of their formulas and
    raise no domain error: a zero dispersion gives mass 0 and a negative
    one a nan mass, a zero radius gives an infinite or nan density, a
    zero measured mass gives an infinite fractional error.  What they
    raise comes from the unit arithmetic and the indexing alone.  The
    fractional error raises UnitConversionError when the measured unit
    does not convert to solar masses and returns otherwise; the
    projected distance raises it when the separation does not convert to
    radians or the distance to parsecs and returns otherwise; the
    enclosed mass raises it when the unit of radius * velocity**2 / G
    does not convert to solar masses and returns otherwise.  The
    velocity dispersion raises nothing but UnitConversionError or
    UnitsError, the rotation velocity nothing but these and the
    IndexError of index 1. *)
Theorem no_domain_checks
  (x mass : R) (q D theta r v centroid_wavelength sigma_width : Quantity)
  (a : QuantityArray) (e : exn) :
  x < 0 -> 0 < mass ->
  bh_mass (quantity 0 km_per_s) = quantity 0 M_sun
  /\ bh_mass (quantity x km_per_s) = {| value := NaN; unit := M_sun |}
  /\ value (density (quantity mass M_sun) (quantity 0 pc)) = Inf false
  /\ value (density (quantity 0 M_sun) (quantity 0 pc)) = NaN
  /\ fractional_error (quantity 0 M_sun)
     = Ok {| value := Inf true; unit := udiv M_sun M_sun |}
  /\ ((convertible M_sun (unit q) = true ->
       exists f : Quantity, fractional_error q = Ok f)
      /\ (convertible M_sun (unit q) = false ->
          fractional_error q = Raise UnitConversionError))
  /\ ((convertible (unit theta) rad = true ->
       convertible (unit D) pc = true ->
       exists s : Quantity, projected_distance_from_center D theta = Ok s)
      /\ (convertible (unit theta) rad = false
          \/ convertible (unit D) pc = false ->
          projected_distance_from_center D theta
          = Raise UnitConversionError))
  /\ ((convertible (udiv (umul (unit r) (upow (unit v) 2)) (unit G)) M_sun
       = true ->
       exists m : Quantity, min_enclosed_mass r v = Ok m)
      /\ (convertible (udiv (umul (unit r) (upow (unit v) 2)) (unit G)) M_sun
          = false ->
          min_enclosed_mass r v = Raise UnitConversionError))
  /\ (velocity_dispersion_of centroid_wavelength sigma_width = Raise e ->
      e = UnitConversionError \/ e = UnitsError)
  /\ (rotation_velocity a = Raise e ->
      e = out_of_bounds 1 (length (values a))
      \/ e = UnitConversionError \/ e = UnitsError)
  /\ exn_class UnitConversionError = "UnitConversionError"%string
  /\ exn_class UnitsError = "UnitsError"%string
  /\ exn_class (out_of_bounds 1 (length (values a))) = "IndexError"%string.
Proof.
  intros Hx Hm.
  split; [ exact bh_mass_zero | ].
  split; [ now apply bh_mass_negative | ].
  split; [ rewrite density_zero_radius, Rsign_pos by assumption; reflexivity | ].
  split; [ rewrite density_zero_radius, Rsign_zero; reflexivity | ].
  split; [ exact fractional_error_zero_mass | ].
  split; [ exact (fractional_error_decides q) | ].
  split; [ exact (projected_distance_decides D theta) | ].
  split; [ exact (min_enclosed_mass_decides r v) | ].
  split; [ apply velocity_dispersion_raises | ].
  split; [ apply rotation_velocity_raises | ].
  repeat split.
Qed.

Lemma no_domain_checks_witness :
  bh_mass (quantity 0 km_per_s) = quantity 0 M_sun
  /\ bh_mass (quantity (-130) km_per_s) = {| value := NaN; unit := M_sun |}
  /\ value (density (quantity 1 M_sun) (quantity 0 pc)) = Inf false
  /\ value (density (quantity 0 M_sun) (quantity 0 pc)) = NaN
  /\ fractional_error (quantity 0 M_sun)
     = Ok {| value := Inf true; unit := udiv M_sun M_sun |}
  /\ ((convertible M_sun (unit (quantity 1 km_per_s)) = true ->
       exists f : Quantity, fractional_error (quantity 1 km_per_s) = Ok f)
      /\ (convertible M_sun (unit (quantity 1 km_per_s)) = false ->
          fractional_error (quantity 1 km_per_s)
          = Raise UnitConversionError))
  /\ ((convertible (unit (quantity 1 arcsec)) rad = true ->
       convertible (unit (quantity 98.1 kg)) pc = true ->
       exists s : Quantity,
         projected_distance_from_center (quantity 98.1 kg)
           (quantity 1 arcsec) = Ok s)
      /\ (convertible (unit (quantity 1 arcsec)) rad = false
          \/ convertible (unit (quantity 98.1 kg)) pc = false ->
          projected_distance_from_center (quantity 98.1 kg)
            (quantity 1 arcsec)
          = Raise UnitConversionError))
  /\ ((convertible
         (udiv (umul (unit (quantity 50 pc))
                     (upow (unit (quantity 100 second)) 2)) (unit G))
         M_sun = true ->
       exists m : Quantity,
         min_enclosed_mass (quantity 50 pc) (quantity 100 second) = Ok m)
      /\ (convertible
            (udiv (umul (unit (quantity 50 pc))
                        (upow (unit (quantity 100 second)) 2)) (unit G))
            M_sun = false ->
          min_enclosed_mass (quantity 50 pc) (quantity 100 second)
          = Raise UnitConversionError))
  /\ (velocity_dispersion_of (quantity 4.861 kg) (quantity 0.001 kg)
      = Raise UnitsError ->
      UnitsError = UnitConversionError \/ UnitsError = UnitsError)
  /\ (rotation_velocity {| values := [Fin 4.861]; array_unit := um |}
      = Raise UnitsError ->
      UnitsError
      = out_of_bounds 1
          (length (values {| values := [Fin 4.861]; array_unit := um |}))
      \/ UnitsError = UnitConversionError \/ UnitsError = UnitsError)
  /\ exn_class UnitConversionError = "UnitConversionError"%string
  /\ exn_class UnitsError = "UnitsError"%string
  /\ exn_class
       (out_of_bounds 1
          (length (values {| values := [Fin 4.861]; array_unit := um |})))
     = "IndexError"%string.
Proof.
  apply (no_domain_checks (-130) 1 (quantity 1 km_per_s)
           (quantity 98.1 kg) (quantity 1 arcsec)
           (quantity 50 pc) (quantity 100 second)
           (quantity 4.861 kg) (quantity 0.001 kg)
           {| values := [Fin 4.861]; array_unit := um |} UnitsError).
  - lra.
  - lra.
Defined.

(** The unit errors at work: a width in kilograms against a centroid in
    kilograms is refused by the equivalency, a mass in km/s by the
    subtraction. *)
Lemma unit_errors_at_work :
  velocity_dispersion_of (quantity 4.861 kg) (quantity 0.001 kg)
  = Raise UnitsError
  /\ velocity_dispersion_of (quantity 4.861 um) (quantity 0.001 kg)
     = Raise UnitConversionError
  /\ velocity_dispersion_of (quantity 4.861 kg) (quantity 0.001 um)
     = Raise UnitConversionError
  /\ to_km_per_s_doppler_relativistic (quantity 1 kg) (quantity 4.861 um)
     = Raise UnitConversionError
  /\ fractional_error (quantity 1 km_per_s) = Raise UnitConversionError
  /\ min_enclosed_mass (quantity 50 pc) (quantity 100 second)
     = Raise UnitConversionError.
Proof. repeat split. Qed.

(** * Further properties of the cells *)


(** ** The velocity dispersion of a line *)

(** For a centroid [w] and a width [sigma] in one length unit the
    velocity dispersion is the Doppler velocity of [w + sigma] against
    [w]: with both taken in Angstrom, [x] for the sum and [restwav] for
    the centroid, it is (x**2 - restwav**2) / (restwav**2 + x**2) * c
    km/s. *)
Theorem velocity_dispersion_formula (w sigma : R) (u : Unit) :
  0 < w -> 0 < scale u -> dim u = length_dims ->
  let x := (w + sigma) * (scale u / scale AA) in
  let restwav := w * (scale u / scale AA) in
  velocity_dispersion_of (quantity w u) (quantity sigma u)
  = Ok (quantity ((x * x - restwav * restwav)
                  / (restwav * restwav + x * x) * ckms) km_per_s).
Proof.
  intros Hw Hs Hd x restwav. unfold velocity_dispersion_of, qadd.
  rewrite to_value_fin by reflexivity.
  cbn [bind value unit quantity fadd].
  replace (w + sigma * (scale u / scale u)) with (w + sigma)
    by (field; lra).
  pose proof (scaled_wavelength_pos w u Hw Hs) as Hr. fold restwav in Hr.
  apply (doppler_wavelengths (w + sigma) w u u Hd Hd).
  fold x restwav. apply Rgt_not_eq.
  assert (0 < restwav * restwav) by now apply Rmult_lt_0_compat.
  assert (0 <= x * x) by apply Rle_0_sqr.
  lra.
Qed.

Lemma velocity_dispersion_formula_witness :
  let x := (4.861 + 0.001) * (scale um / scale AA) in
  let restwav := 4.861 * (scale um / scale AA) in
  velocity_dispersion_of (quantity 4.861 um) (quantity 0.001 um)
  = Ok (quantity ((x * x - restwav * restwav)
                  / (restwav * restwav + x * x) * ckms) km_per_s).
Proof.
  apply (velocity_dispersion_formula 4.861 0.001 um).
  - lra.
  - simpl. lra.
  - reflexivity.
Defined.

(** A width whose unit does not convert to the unit of the centroid
    stops the cell at the addition, with a UnitConversionError. *)
Theorem velocity_dispersion_incompatible_width
  (centroid_wavelength sigma_width : Quantity) :
  convertible (unit sigma_width) (unit centroid_wavelength) = false ->
  velocity_dispersion_of centroid_wavelength sigma_width
  = Raise UnitConversionError.
Proof.
  intros H. unfold velocity_dispersion_of, qadd, to_value.
  rewrite H. reflexivity.
Qed.

Lemma velocity_dispersion_incompatible_width_witness :
  velocity_dispersion_of (quantity 4.861 um) (quantity 0.001 km_per_s)
  = Raise UnitConversionError.
Proof.
  apply (velocity_dispersion_incompatible_width
           (quantity 4.861 um) (quantity 0.001 km_per_s)).
  reflexivity.
Defined.



(** ** The rotation velocity *)

(** For two positive centroids [a] and [b] in one length unit the
    rotation velocity is the Doppler velocity of the second centroid
    against the mean of the two: with both taken in Angstrom, [x] for
    the second centroid and [restwav] for the mean (a + b) / 2, it is
    (x**2 - restwav**2) / (restwav**2 + x**2) * c km/s. *)
Theorem rotation_velocity_formula (a b : R) (u : Unit) :
  0 < a -> 0 < b -> 0 < scale u -> dim u = length_dims ->
  let x := b * (scale u / scale AA) in
  let restwav := (a + b) / 2 * (scale u / scale AA) in
  rotation_velocity {| values := [Fin a; Fin b]; array_unit := u |}
  = to_km_per_s_doppler_relativistic (quantity b u)
      (quantity ((a + b) / 2) u)
  /\ rotation_velocity {| values := [Fin a; Fin b]; array_unit := u |}
     = Ok (quantity ((x * x - restwav * restwav)
                     / (restwav * restwav + x * x) * ckms) km_per_s).
Proof.
  intros Ha Hb Hs Hd x restwav.
  assert (E : rotation_velocity
                {| values := [Fin a; Fin b]; array_unit := u |}
              = to_km_per_s_doppler_relativistic (quantity b u)
                  (quantity ((a + b) / 2) u)).
  { unfold rotation_velocity, array_index, array_mean.
    cbn [values array_unit nth_error bind fold_left fadd length].
    rewrite fdiv_fin by (rewrite INR_IZR_INZ; simpl; lra).
    replace ((0 + a + b) / INR 2) with ((a + b) / 2)
      by (rewrite INR_IZR_INZ; simpl; field).
    reflexivity. }
  split; [ exact E | ].
  rewrite E.
  assert (Hm : 0 < (a + b) / 2) by lra.
  pose proof (scaled_wavelength_pos _ u Hm Hs) as Hr. fold restwav in Hr.
  apply (doppler_wavelengths b ((a + b) / 2) u u Hd Hd).
  fold x restwav. apply Rgt_not_eq.
  assert (0 < restwav * restwav) by now apply Rmult_lt_0_compat.
  assert (0 <= x * x) by apply Rle_0_sqr.
  lra.
Qed.

Lemma rotation_velocity_formula_witness :
  let x := 4.862 * (scale um / scale AA) in
  let restwav := (4.861 + 4.862) / 2 * (scale um / scale AA) in
  rotation_velocity {| values := [Fin 4.861; Fin 4.862]; array_unit := um |}
  = to_km_per_s_doppler_relativistic (quantity 4.862 um)
      (quantity ((4.861 + 4.862) / 2) um)
  /\ rotation_velocity
       {| values := [Fin 4.861; Fin 4.862]; array_unit := um |}
     = Ok (quantity ((x * x - restwav * restwav)
                     / (restwav * restwav + x * x) * ckms) km_per_s).
Proof.
  apply (rotation_velocity_formula 4.861 4.862 um).
  - lra.
  - lra.
  - simpl. lra.
  - reflexivity.
Defined.

(** With fewer than two centroids the rotation velocity cell raises
    numpy's IndexError for index 1, whatever the unit of the array. *)
Theorem rotation_velocity_needs_two (wavelength_centroids : QuantityArray) :
  (length (values wavelength_centroids) < 2)%nat ->
  rotation_velocity wavelength_centroids
  = Raise (out_of_bounds 1 (length (values wavelength_centroids))).
Proof.
  intros H. unfold rotation_velocity, array_index.
  assert (E : nth_error (values wavelength_centroids) 1 = None)
    by (apply nth_error_None; lia).
  rewrite E. reflexivity.
Qed.

Lemma rotation_velocity_needs_two_witness :
  rotation_velocity {| values := [Fin 4.861]; array_unit := um |}
  = Raise (out_of_bounds 1 1).
Proof.
  apply (rotation_velocity_needs_two
           {| values := [Fin 4.861]; array_unit := um |}).
  simpl. lia.
Defined.

(** ** The measuring cells past their guard *)

Lemma insert_sorted_length (x : string) (l : list string) :
  length (insert_sorted x l) = S (length l).
Proof.
  induction l as [ | y l IH ]; simpl; [ reflexivity | ].
  destruct (String.leb x y); simpl; [ reflexivity | now rewrite IH ].
Qed.

Lemma sorted_length (l : list string) : length (sorted l) = length l.
Proof.
  induction l as [ | x l IH ]; simpl; [ reflexivity | ].
  rewrite insert_sorted_length. now rewrite IH.
Qed.

Lemma slice_last_length {A} (n : nat) (l : list A) :
  length (slice_last n l) = Nat.min n (length l).
Proof. unfold slice_last. rewrite length_skipn. lia. Qed.

Lemma to_values_length (l : list Quantity) (u : Unit) (xs : list fval) :
  to_values l u = Ok xs -> length xs = length l.
Proof.
  revert xs. induction l as [ | q l IH ]; simpl; intros xs H.
  - injection H as <-. reflexivity.
  - destruct (to_value q u) as [ x | e ]; [ | discriminate ].
    simpl in H. destruct (to_values l u) as [ ys | e ]; [ | discriminate ].
    simpl in H. injection H as <-. simpl. now rewrite (IH ys).
Qed.

Lemma quantity_array_length (l : list Quantity) (a : QuantityArray) :
  quantity_array l = Ok a -> length (values a) = length l.
Proof.
  destruct l as [ | q l ]; unfold quantity_array; intros H.
  - injection H as <-. reflexivity.
  - destruct (to_values (q :: l) (unit q)) as [ xs | e ] eqn:E;
      [ | discriminate ].
    simpl in H. injection H as <-. simpl.
    now apply to_values_length in E.
Qed.

Section Measuring.

Variable session : Type.
Variable spectral_subset_choices : session -> list string.
Variable set_spatial_subset : string -> M session Datatypes.unit.
Variable set_spectral_subset : string -> M session Datatypes.unit.
Variable get_results : M session (list result_row).
Variable get_interactive_regions_keys : M session (list string).
Variable float : string -> outcome fval.
Variable Unit_of_string : string -> outcome Unit.

Lemma subset_available (st : session) :
  length (spectral_subset_choices st) <> 1%nat ->
  (available_spectral_subsets session spectral_subset_choices st =? 0)%Z
  = false.
Proof.
  intros H. unfold available_spectral_subsets.
  apply Z.eqb_neq. lia.
Qed.

Lemma measure_centroids_length
  (subsets : list string) (acc l : list Quantity) (st st' : session) :
  measure_centroids session set_spatial_subset get_results float
    Unit_of_string subsets acc st = (Ok l, st') ->
  length l = (length acc + length subsets)%nat.
Proof.
  revert acc st.
  induction subsets as [ | subset rest IH ]; intros acc st H.
  - cbn in H. injection H as <- _. simpl. lia.
  - cbn [measure_centroids] in H. unfold bindM at 1 in H.
    destruct (set_spatial_subset subset st) as [[ [] | e ] st1];
      [ | discriminate ].
    unfold bindM at 1 in H.
    destruct (get_results st1) as [[ results | e ] st2]; [ | discriminate ].
    unfold bindM at 1 in H. unfold lift at 1 in H.
    destruct (index_last results) as [ center | e ]; [ | discriminate ].
    unfold bindM at 1 in H. unfold lift at 1 in H.
    destruct (row_quantity float Unit_of_string center) as [ q | e ];
      [ | discriminate ].
    apply IH in H. rewrite H, length_app. simpl. lia.
Qed.

(** When the centroid cell succeeds it has measured the last two of the
    interactive regions and no more: its array has as many entries as
    there are regions, up to two. *)
Theorem wavelength_centroids_at_most_two
  (st st1 st2 st' : session) (keys : list string) (a : QuantityArray) :
  length (spectral_subset_choices st) <> 1%nat ->
  set_spectral_subset "Subset 2" st = (Ok tt, st1) ->
  get_interactive_regions_keys st1 = (Ok keys, st2) ->
  wavelength_centroids session spectral_subset_choices set_spatial_subset
    set_spectral_subset get_results get_interactive_regions_keys
    float Unit_of_string st = (Ok a, st') ->
  length (values a) = Nat.min 2 (length keys).
Proof.
  intros Hg Hset Hkeys H.
  unfold wavelength_centroids in H. rewrite (subset_available st Hg) in H.
  unfold bindM at 1 in H. rewrite Hset in H.
  unfold bindM at 1 in H. rewrite Hkeys in H.
  unfold bindM at 1 in H.
  destruct (measure_centroids session set_spatial_subset get_results float
              Unit_of_string (slice_last 2 (sorted keys)) [] st2)
    as [[ l | e ] st3] eqn:E; [ | discriminate ].
  unfold lift in H.
  destruct (quantity_array l) as [ a' | e ] eqn:Ea; [ | discriminate ].
  injection H as <- _.
  apply quantity_array_length in Ea. apply measure_centroids_length in E.
  rewrite Ea, E, slice_last_length, sorted_length. simpl. reflexivity.
Qed.

(** Past the guard, a plugin that reports fewer than three results makes
    the velocity dispersion cell raise IndexError, after both subsets
    have been set and the results read. *)
Theorem velocity_dispersion_short_results
  (st st1 st2 st3 : session) (rows : list result_row) :
  length (spectral_subset_choices st) <> 1%nat ->
  set_spatial_subset "Subset 1" st = (Ok tt, st1) ->
  set_spectral_subset "Subset 2" st1 = (Ok tt, st2) ->
  get_results st2 = (Ok rows, st3) ->
  (length rows < 3)%nat ->
  velocity_dispersion session spectral_subset_choices set_spatial_subset
    set_spectral_subset get_results float Unit_of_string st
  = (Raise IndexError, st3).
Proof.
  intros Hg H1 H2 H3 Hlen.
  unfold velocity_dispersion. rewrite (subset_available st Hg).
  unfold bindM at 1. rewrite H1.
  unfold bindM at 1. rewrite H2.
  unfold bindM at 1. rewrite H3.
  unfold bindM at 1. unfold lift at 1. unfold index.
  assert (E : nth_error rows 2 = None) by (apply nth_error_None; lia).
  rewrite E. reflexivity.
Qed.

(** Past the guard, the velocity dispersion cell takes the width from
    the third result and the centroid from the last one, and returns the
    velocity dispersion of these two, or the exception it raises, in the
    session left by the plugin calls. *)
Theorem velocity_dispersion_measures
  (st st1 st2 st3 : session) (rows : list result_row)
  (sigma_row center : result_row)
  (sigma_width centroid_wavelength : Quantity) :
  length (spectral_subset_choices st) <> 1%nat ->
  set_spatial_subset "Subset 1" st = (Ok tt, st1) ->
  set_spectral_subset "Subset 2" st1 = (Ok tt, st2) ->
  get_results st2 = (Ok rows, st3) ->
  nth_error rows 2 = Some sigma_row ->
  index_last rows = Ok center ->
  row_quantity float Unit_of_string sigma_row = Ok sigma_width ->
  row_quantity float Unit_of_string center = Ok centroid_wavelength ->
  velocity_dispersion session spectral_subset_choices set_spatial_subset
    set_spectral_subset get_results float Unit_of_string st
  = (velocity_dispersion_of centroid_wavelength sigma_width, st3).
Proof.
  intros Hg H1 H2 H3 Hs Hc Hqs Hqc.
  unfold velocity_dispersion. rewrite (subset_available st Hg).
  unfold bindM at 1. rewrite H1.
  unfold bindM at 1. rewrite H2.
  unfold bindM at 1. rewrite H3.
  unfold bindM at 1. unfold lift at 1. unfold index. rewrite Hs.
  unfold bindM at 1. unfold lift at 1. rewrite Hqs.
  unfold bindM at 1. unfold lift at 1. rewrite Hc.
  unfold bindM at 1. unfold lift at 1. rewrite Hqc.
  reflexivity.
Qed.

End Measuring.

Lemma wavelength_centroids_at_most_two_witness :
  exists (a : QuantityArray) (st' : Scripted.session),
    Scripted.wavelength_centroids Scripted.three_regions = (Ok a, st')
    /\ length (values a) = Nat.min 2 3.
Proof.
  do 2 eexists.
  assert (H : Scripted.wavelength_centroids Scripted.three_regions
              = (Ok {| values := [Fin (4.861 * (scale um / scale um));
                                   Fin (4.861 * (scale um / scale um))];
                       array_unit := um |}, Scripted.three_regions))
    by reflexivity.
  split; [ exact H | ].
  apply (wavelength_centroids_at_most_two Scripted.session
           Scripted.spectral_subset_choices Scripted.set_subset
           Scripted.set_subset Scripted.get_results
           Scripted.get_interactive_regions_keys Scripted.float
           Scripted.Unit_of_string
           Scripted.three_regions Scripted.three_regions
           Scripted.three_regions Scripted.three_regions
           ["Subset 3"; "Subset 1"; "Subset 4"]%string _).
  - simpl. lia.
  - reflexivity.
  - reflexivity.
  - exact H.
Defined.

Lemma velocity_dispersion_short_results_witness :
  Idle.velocity_dispersion Idle.one_selected
  = (Raise IndexError, Idle.one_selected).
Proof.
  apply (velocity_dispersion_short_results Idle.session
           Idle.spectral_subset_choices Idle.set_subset Idle.set_subset
           Idle.get_results Idle.float Idle.Unit_of_string
           Idle.one_selected Idle.one_selected Idle.one_selected
           Idle.one_selected []).
  - simpl. lia.
  - reflexivity.
  - reflexivity.
  - reflexivity.
  - simpl. lia.
Defined.

Lemma velocity_dispersion_measures_witness :
  Scripted.velocity_dispersion Scripted.three_regions
  = (velocity_dispersion_of (quantity 4.861 um) (quantity 0.001 um),
     Scripted.three_regions).
Proof.
  apply (velocity_dispersion_measures Scripted.session
           Scripted.spectral_subset_choices Scripted.set_subset
           Scripted.set_subset Scripted.get_results
           Scripted.float Scripted.Unit_of_string
           Scripted.three_regions Scripted.three_regions
           Scripted.three_regions Scripted.three_regions
           Scripted.results
           {| row_result := "0.001"; row_unit := "um" |}
           {| row_result := "4.861"; row_unit := "um" |}
           (quantity 0.001 um) (quantity 4.861 um)).
  - simpl. lia.
  - reflexivity.
  - reflexivity.
  - reflexivity.
  - reflexivity.
  - reflexivity.
  - reflexivity.
  - reflexivity.
Defined.

(** ** The black-hole mass across units *)

(** The mass does not depend on the unit the velocity dispersion comes
    in: for a positive dispersion in any velocity unit, the mass in
    kilograms is 1.349e8 solar masses times (sigma / 200 km/s) ** 4.02
    with sigma taken in SI. *)
Theorem bh_mass_unit_free (sigma : R) (u : Unit) :
  0 < sigma -> 0 < scale u -> dim u = dim km_per_s ->
  si_value (bh_mass (quantity sigma u))
  = Fin (134900000 * M_sun_in_kg
         * Rpower (sigma * scale u / 200000) 4.02).
Proof.
  intros Hs Hu Hd. unfold si_value.
  rewrite bh_mass_value_pos by assumption.
  change (quantity sigma u) with {| value := Fin sigma; unit := u |}.
  rewrite bh_mass_unit by assumption.
  cbn [fmul scale]. f_equal.
  replace (sigma * scale u / 200000)
    with (sigma / 200 * (scale u / scale km_per_s))
    by (simpl; field).
  rewrite <- Rpower_mult_distr.
  - ring.
  - lra.
  - apply Rdiv_lt_0_compat; [ assumption | simpl; lra ].
Qed.

Lemma bh_mass_unit_free_witness :
  si_value (bh_mass (quantity 130000 (udiv metre second)))
  = Fin (134900000 * M_sun_in_kg
         * Rpower (130000 * scale (udiv metre second) / 200000) 4.02).
Proof.
  apply (bh_mass_unit_free 130000 (udiv metre second)).
  - lra.
  - simpl. lra.
  - reflexivity.
Defined.

(** A nan velocity dispersion passes through silently: the mass is nan
    and so is its fractional error, and nothing is raised. *)
Theorem nan_dispersion_propagates :
  bh_mass {| value := NaN; unit := km_per_s |}
  = {| value := NaN; unit := M_sun |}
  /\ fractional_error (bh_mass {| value := NaN; unit := km_per_s |})
     = Ok {| value := NaN; unit := udiv M_sun M_sun |}.
Proof.
  assert (H : bh_mass {| value := NaN; unit := km_per_s |}
              = {| value := NaN; unit := M_sun |}).
  { apply quantity_eq; [ reflexivity | apply bh_mass_unit_km_per_s ]. }
  split; [ exact H | ].
  rewrite H. unfold fractional_error, fractional_error_of, qsub.
  rewrite literature_mass.
  change {| value := Fin (Rpower 10 7.38); unit := M_sun |}
    with (quantity (Rpower 10 7.38) M_sun).
  rewrite to_value_fin by reflexivity.
  reflexivity.
Qed.

(** ** The fractional error across units *)



(** ** Enclosed mass, density and the black-hole fraction *)





(** The black-hole fraction is the ratio of the two masses as physical
    quantities, whatever mass units they come in. *)
Theorem bh_mass_fraction_ratio (a b : R) (ua ub : Unit) :
  b <> 0 -> scale ub <> 0 -> dim ua = dim ub ->
  bh_mass_fraction (quantity a ua) (quantity b ub)
  = Ok (Fin (a * scale ua / (b * scale ub))).
Proof.
  intros Hb Hs Hd.
  unfold bh_mass_fraction, float_of_quantity, to_value, convertible.
  cbn [unit qdiv quantity udiv dim]. rewrite Hd.
  assert (E : dims_eqb (dims_div (dim ub) (dim ub)) (dim dimensionless)
              = true).
  { unfold dims_eqb. cbn [dims_div dimensionless dim dimensionless_dims
      d_length d_mass d_time d_angle].
    rewrite !Qeq_bool_self_difference. reflexivity. }
  rewrite E. cbn [value qdiv quantity]. rewrite fdiv_fin by assumption.
  cbn [fmul scale dimensionless udiv]. do 2 f_equal. now field.
Qed.

Lemma bh_mass_fraction_ratio_witness :
  bh_mass_fraction (quantity 3 M_sun) (quantity 2 kg)
  = Ok (Fin (3 * scale M_sun / (2 * scale kg))).
Proof.
  apply (bh_mass_fraction_ratio 3 2 M_sun kg).
  - lra.
  - simpl. lra.
  - reflexivity.
Defined.

(** Two quantities whose units do not cancel have no black-hole
    fraction: the conversion to a Python float raises TypeError. *)
Theorem bh_mass_fraction_needs_ratio (p q : Quantity) :
  convertible (udiv (unit p) (unit q)) dimensionless = false ->
  bh_mass_fraction p q = Raise TypeError.
Proof.
  intros H. unfold bh_mass_fraction, float_of_quantity, to_value.
  cbn [unit qdiv]. rewrite H. reflexivity.
Qed.

Lemma bh_mass_fraction_needs_ratio_witness :
  bh_mass_fraction (quantity 3 M_sun) (quantity 2 km_per_s) = Raise TypeError.
Proof.
  apply (bh_mass_fraction_needs_ratio (quantity 3 M_sun)
           (quantity 2 km_per_s)).
  reflexivity.
Defined.

(** ** The projected distance in other units *)



(** A distance that is not a length is refused after the angle has been
    converted: the conversion to parsecs raises UnitConversionError. *)
Theorem projected_distance_needs_length (D theta : Quantity) :
  convertible (unit theta) rad = true ->
  convertible (unit D) pc = false ->
  projected_distance_from_center D theta = Raise UnitConversionError.
Proof.
  intros Ht HD.
  unfold projected_distance_from_center, to, to_value.
  rewrite Ht. cbn [bind qmul_float unit]. rewrite HD. reflexivity.
Qed.

Lemma projected_distance_needs_length_witness :
  projected_distance_from_center (quantity 98.1 kg) (quantity 1 arcsec)
  = Raise UnitConversionError.
Proof.
  apply (projected_distance_needs_length (quantity 98.1 kg)
           (quantity 1 arcsec)); reflexivity.
Defined.

(** ** The guard on an empty list of choices *)

Section EmptyChoices.

Variable session : Type.
Variable spectral_subset_choices : session -> list string.
Variable set_spatial_subset : string -> M session Datatypes.unit.
Variable set_spectral_subset : string -> M session Datatypes.unit.
Variable get_results : M session (list result_row).
Variable float : string -> outcome fval.
Variable Unit_of_string : string -> outcome Unit.

(** The guard fires on exactly one choice.  With no choice at all the
    count is -1, which Python takes as true: the cell goes on to the
    plugin, and an error there is the error of the cell. *)
Theorem empty_choices_pass_the_guard (st st1 : session) (e : exn) :
  spectral_subset_choices st = [] ->
  set_spatial_subset "Subset 1" st = (Raise e, st1) ->
  available_spectral_subsets session spectral_subset_choices st = (-1)%Z
  /\ velocity_dispersion session spectral_subset_choices set_spatial_subset
       set_spectral_subset get_results float Unit_of_string st
     = (Raise e, st1).
Proof.
  intros Hc Hset.
  assert (Ha : available_spectral_subsets session spectral_subset_choices st
               = (-1)%Z).
  { unfold available_spectral_subsets. rewrite Hc. reflexivity. }
  split; [ exact Ha | ].
  unfold velocity_dispersion. rewrite Ha. cbv iota beta.
  change ((-1 =? 0)%Z) with false. cbv iota.
  unfold bindM at 1. rewrite Hset. reflexivity.
Qed.

End EmptyChoices.

Lemma empty_choices_pass_the_guard_witness :
  available_spectral_subsets Strict.session Strict.spectral_subset_choices []
  = (-1)%Z
  /\ Strict.velocity_dispersion [] = (Raise Strict.not_a_choice, []).
Proof.
  apply (empty_choices_pass_the_guard Strict.session
           Strict.spectral_subset_choices Strict.set_subset Strict.set_subset
           Strict.get_results Strict.float Strict.Unit_of_string
           [] [] Strict.not_a_choice); reflexivity.
Defined.

(** ** Which regions the centroid cell measures *)

Lemma insert_sorted_permutation (x : string) (l : list string) :
  Permutation (x :: l) (insert_sorted x l).
Proof.
  induction l as [ | y l IH ]; simpl; [ reflexivity | ].
  destruct (String.leb x y); [ reflexivity | ].
  rewrite perm_swap. now apply perm_skip.
Qed.

Lemma sorted_permutation (l : list string) : Permutation l (sorted l).
Proof.
  induction l as [ | x l IH ]; simpl; [ reflexivity | ].
  rewrite <- insert_sorted_permutation. now apply perm_skip.
Qed.

Lemma insert_sorted_HdRel (x y : string) (l : list string) :
  String.leb y x = true ->
  HdRel (fun a b => String.leb a b = true) y l ->
  HdRel (fun a b => String.leb a b = true) y (insert_sorted x l).
Proof.
  intros Hyx H. destruct l as [ | z l ]; simpl.
  - now constructor.
  - destruct (String.leb x z); constructor; [ assumption | ].
    now inversion H.
Qed.

Lemma insert_sorted_Sorted (x : string) (l : list string) :
  Sorted (fun a b => String.leb a b = true) l ->
  Sorted (fun a b => String.leb a b = true) (insert_sorted x l).
Proof.
  induction l as [ | y l IH ]; simpl; intros H.
  - repeat constructor.
  - destruct (String.leb x y) eqn:E.
    + constructor; [ assumption | now constructor ].
    + inversion H as [ | ? ? Hs Hh ]; subst.
      constructor; [ now apply IH | ].
      apply insert_sorted_HdRel; [ | assumption ].
      destruct (String.leb_total x y) as [ Hxy | Hyx ];
        [ congruence | assumption ].
Qed.

Lemma sorted_Sorted (l : list string) :
  Sorted (fun a b => String.leb a b = true) (sorted l).
Proof.
  induction l as [ | x l IH ]; simpl; [ constructor | ].
  now apply insert_sorted_Sorted.
Qed.

Lemma recording_measure
  (subsets : list string) (acc : list Quantity)
  (choices keys selected : list string) :
  measure_centroids Recording.session Recording.set_spatial_subset
    Recording.get_results Recording.float Recording.Unit_of_string
    subsets acc (choices, keys, selected)
  = (Ok (acc ++ repeat Recording.centroid (length subsets)),
     (choices, keys, selected ++ subsets)).
Proof.
  revert acc selected.
  induction subsets as [ | subset rest IH ]; intros acc selected.
  - simpl. now rewrite !app_nil_r.
  - cbn [measure_centroids]. unfold bindM at 1.
    unfold Recording.set_spatial_subset at 1. cbn [fst snd].
    unfold bindM at 1. unfold Recording.get_results at 1.
    unfold bindM at 1. unfold lift at 1. cbn [index_last rev app].
    unfold bindM at 1. unfold lift at 1.
    change (row_quantity Recording.float Recording.Unit_of_string
              {| row_result := "4.861"; row_unit := "um" |})
      with (Ok Recording.centroid).
    cbv iota beta. rewrite IH. cbn [length repeat].
    now rewrite <- !app_assoc.
Qed.

Lemma recording_array (n : nat) :
  exists a : QuantityArray,
    quantity_array (repeat Recording.centroid n) = Ok a.
Proof.
  destruct n as [ | n ]; [ eexists; reflexivity | ].
  assert (H : forall k,
             to_values (repeat Recording.centroid k) um
             = Ok (repeat (Fin (4.861 * (scale um / scale um))) k)).
  { induction k as [ | k IH ]; [ reflexivity | ].
    cbn [repeat to_values]. rewrite IH. reflexivity. }
  unfold quantity_array. cbn [repeat].
  change (unit Recording.centroid) with um.
  change (Recording.centroid :: repeat Recording.centroid n)
    with (repeat Recording.centroid (S n)).
  rewrite H. eexists. reflexivity.
Qed.

(** The centroid cell asks for the last two names of the sorted region
    keys, in ascending order, and for no other region: in a session
    that records the spatial subsets selected, the record after the
    cell is the tail of at most two names of the sorted keys, where the
    sorted keys are the keys rearranged in lexicographic order; the
    cell returns one centroid for each name. *)
Theorem wavelength_centroids_selects_last_two
  (choices keys : list string) :
  length choices <> 1%nat ->
  exists (a : QuantityArray) (before : list string),
    Recording.wavelength_centroids (choices, keys, [])
    = (Ok a, (choices, keys, slice_last 2 (sorted keys)))
    /\ length (values a) = Nat.min 2 (length keys)
    /\ sorted keys = before ++ slice_last 2 (sorted keys)
    /\ Permutation keys (sorted keys)
    /\ Sorted (fun x y => String.leb x y = true) (sorted keys).
Proof.
  intros Hg.
  destruct (recording_array (length (slice_last 2 (sorted keys))))
    as [a Ha].
  exists a, (firstn (length (sorted keys) - 2) (sorted keys)).
  split; [ | split; [ | split; [ | split ] ] ].
  - unfold Recording.wavelength_centroids, wavelength_centroids.
    rewrite (subset_available Recording.session
               Recording.spectral_subset_choices (choices, keys, []) Hg).
    unfold bindM at 1. unfold Recording.set_spectral_subset at 1.
    unfold bindM at 1. unfold Recording.get_interactive_regions_keys at 1.
    cbn [fst snd]. unfold bindM at 1.
    rewrite recording_measure. cbn [app]. unfold lift.
    rewrite Ha. reflexivity.
  - apply quantity_array_length in Ha.
    rewrite Ha, repeat_length, slice_last_length, sorted_length.
    reflexivity.
  - unfold slice_last. symmetry. apply firstn_skipn.
  - apply sorted_permutation.
  - apply sorted_Sorted.
Qed.

Lemma wavelength_centroids_selects_last_two_witness :
  exists (a : QuantityArray) (before : list string),
    Recording.wavelength_centroids
      (["Entire Spectrum"; "Subset 2"],
       ["Subset 3"; "Subset 10"; "Subset 1"; "Subset 4"], [])%string
    = (Ok a,
       (["Entire Spectrum"; "Subset 2"],
        ["Subset 3"; "Subset 10"; "Subset 1"; "Subset 4"],
        slice_last 2
          (sorted ["Subset 3"; "Subset 10"; "Subset 1"; "Subset 4"])))%string
    /\ length (values a)
       = Nat.min 2
           (length ["Subset 3"; "Subset 10"; "Subset 1"; "Subset 4"]%string)
    /\ sorted ["Subset 3"; "Subset 10"; "Subset 1"; "Subset 4"]%string
       = before
         ++ slice_last 2
              (sorted ["Subset 3"; "Subset 10"; "Subset 1"; "Subset 4"]%string)
    /\ Permutation ["Subset 3"; "Subset 10"; "Subset 1"; "Subset 4"]%string
         (sorted ["Subset 3"; "Subset 10"; "Subset 1"; "Subset 4"]%string)
    /\ Sorted (fun x y => String.leb x y = true)
         (sorted ["Subset 3"; "Subset 10"; "Subset 1"; "Subset 4"]%string).
Proof.
  apply (wavelength_centroids_selects_last_two
           ["Entire Spectrum"; "Subset 2"]%string
           ["Subset 3"; "Subset 10"; "Subset 1"; "Subset 4"]%string).
  simpl. lia.
Defined.

(** With ten or more regions the order is that of the names as strings:
    "Subset 10" comes before "Subset 3", and the last two are "Subset 3"
    and "Subset 4". *)
Lemma last_two_of_four_regions :
  slice_last 2 (sorted ["Subset 3"; "Subset 10"; "Subset 1"; "Subset 4"]%string)
  = ["Subset 3"; "Subset 4"]%string.
Proof. reflexivity. Qed.
